(** * The AI-doctor orchestration pipeline of [app.py]

    A shallow embedding of [process_inputs] and of the two button handlers
    of [main] that touch the session state (Analyze and Clear Cache).

    The speech-to-text, vision and text-to-speech clients, [os.path.exists]
    and [os.environ.get] are the program's collaborators: they are the
    fields of an environment record and every theorem quantifies over it.
    Every call to a collaborator is recorded in a log, so that statements
    such as "the fallback is called with the same text" or "nothing is
    synthesised" are statements about the log. *)

From stdpp Require Import gmap strings list fin_maps.
From Stdlib Require Import Strings.Byte.

Local Open Scope string_scope.
Local Open Scope list_scope.

(** ** Values, exceptions and results *)

(** A Python exception object of class [Exception] (or one of its
    subclasses), the class named by every handler of [process_inputs];
    [str e] is its message. *)
Inductive exn : Type :=
| Exception (msg : string).

Definition str (e : exn) : string :=
  match e with Exception msg => msg end.

(** The outcome of a call: a returned value or a raised exception. *)
Inductive result (A : Type) : Type :=
| Ok (a : A)
| Raise (e : exn).
Arguments Ok {A} a.
Arguments Raise {A} e.

(** A file path argument is a [str] or [None]. *)
Abbreviation path := (option string).

(** Truth value of a [str]: only the empty string is falsy. *)
Definition truthy_str (s : string) : bool :=
  match s with
  | EmptyString => false
  | String _ _ => true
  end.

(** Truth value of a [str]-or-[None] object. *)
Definition truthy (o : path) : bool :=
  match o with
  | None => false
  | Some s => truthy_str s
  end.

(** ** The log of calls *)

Inductive event : Type :=
| EvExists (p : string)
| EvTranscribe (GROQ_API_KEY : option string) (audio_filepath stt_model : string)
| EvEncodeImage (image_path : string)
| EvAnalyze (query encoded_image model : string)
| EvElevenlabs (input_text output_filepath : string)
| EvGtts (input_text output_filepath : string)
| EvStError (msg : string)
| EvStWarning (msg : string)
| EvRerun.

(** The log holds the newest event first: the tail of a log is the history
    at the time its head was emitted. *)
Abbreviation trace := (list event).

(** ** The collaborators

    Each one answers from the history of calls made so far, so a service
    may answer differently each time and a file may appear or vanish
    between two checks. *)
Record Env : Type := {
  environ_get : string → option string;
  path_exists : trace → string → bool;
  transcribe_with_groq : trace → option string → string → string → result string;
  encode_image : trace → string → result string;
  analyze_image_with_query : trace → string → string → string → result string;
  text_to_speech_with_elevenlabs : trace → string → string → result unit;
  text_to_speech_with_gtts : trace → string → string → result unit
}.

(** ** Computations: a log and an exception *)

Definition M (A : Type) : Type := trace → result A * trace.

Definition ret {A} (a : A) : M A := λ t, (Ok a, t).

Definition bind {A B} (m : M A) (k : A → M B) : M B :=
  λ t, match m t with
       | (Ok a, t') => k a t'
       | (Raise e, t') => (Raise e, t')
       end.

Notation "'let!' x ':=' m 'in' k" := (bind m (λ x, k))
  (at level 10, x pattern, m at level 100, k at level 200).

(** [try: body  except Exception as e: handler e]. *)
Definition try_except {A} (body : M A) (handler : exn → M A) : M A :=
  λ t, match body t with
       | (Ok a, t') => (Ok a, t')
       | (Raise e, t') => handler e t'
       end.

(** A call to a collaborator: it answers from the history, and the call is
    logged whatever the answer. *)
Definition call {A} (ev : event) (answer : trace → result A) : M A :=
  λ t, (answer t, ev :: t).

(** ** Constants of [app.py] *)

Definition nl : string := String (Ascii.ascii_of_nat 10) EmptyString.

Definition system_prompt : string :=
  "You have to act as a professional doctor, i know you are not but this is for learning purpose. " +:+ nl +:+
  "            What's in this image?. Do you find anything wrong with it medically? " +:+ nl +:+
  "            If you make a differential, suggest some remedies for them. Donot add any numbers or special characters in " +:+ nl +:+
  "            your response. Your response should be in one long paragraph. Also always answer as if you are answering to a real person." +:+ nl +:+
  "            Donot say 'In the image I see' but say 'With what I see, I think you have ....'" +:+ nl +:+
  "            Dont respond as an AI model in markdown, your answer should mimic that of an actual doctor not an AI bot, " +:+ nl +:+
  "            Keep your answer concise (max 2 sentences). No preamble, start your answer right away please".

Definition stt_model : string := "whisper-large-v3".
Definition vision_model : string := "meta-llama/llama-4-scout-17b-16e-instruct".
Definition no_image : string := "No image provided for me to analyze".
Definition voice_file : string := "doctor_response.mp3".

Section Pipeline.

Variable env : Env.

(** *** Calls *)

Definition os_path_exists (p : string) : M bool :=
  call (EvExists p) (λ t, Ok (path_exists env t p)).

(** Streamlit's display calls are logged and return. *)
Definition st_error (msg : string) : M unit :=
  call (EvStError msg) (λ _, Ok tt).

Definition st_warning (msg : string) : M unit :=
  call (EvStWarning msg) (λ _, Ok tt).

Definition do_transcribe (key : option string) (audio model : string) : M string :=
  call (EvTranscribe key audio model)
       (λ t, transcribe_with_groq env t key audio model).

Definition do_encode_image (p : string) : M string :=
  call (EvEncodeImage p) (λ t, encode_image env t p).

Definition do_analyze (query encoded model : string) : M string :=
  call (EvAnalyze query encoded model)
       (λ t, analyze_image_with_query env t query encoded model).

Definition do_elevenlabs (text out : string) : M unit :=
  call (EvElevenlabs text out)
       (λ t, text_to_speech_with_elevenlabs env t text out).

Definition do_gtts (text out : string) : M unit :=
  call (EvGtts text out) (λ t, text_to_speech_with_gtts env t text out).

(** [if fp and os.path.exists(fp): then_(fp)  else: else_]. The [and]
    short-circuits: the file system is asked only for a truthy [fp]. *)
Definition if_given_and_exists {A} (fp : path)
    (then_ : string → M A) (else_ : M A) : M A :=
  match fp with
  | None => else_
  | Some p =>
      if truthy_str p
      then let! found := os_path_exists p in
           if found : bool then then_ p else else_
      else else_
  end.

(** *** [process_inputs], lines 44-56: "Process audio if provided" *)
Definition transcription_stage (audio_filepath : path) : M string :=
  if_given_and_exists audio_filepath
    (λ p, try_except
            (do_transcribe (environ_get env "GROQ_API_KEY") p stt_model)
            (λ e, let! _ := st_error ("Error transcribing audio: " +:+ str e) in
                  ret "Error transcribing audio"))
    (ret EmptyString).

(** *** lines 61-66: the body of the image [try] block *)
Definition vision_query (speech_to_text_output image_filepath : string)
  : M string :=
  let! encoded_image := do_encode_image image_filepath in
  do_analyze (system_prompt +:+ speech_to_text_output)
             encoded_image vision_model.

(** *** lines 58-71: "Process image if provided" *)
Definition analysis_stage (speech_to_text_output : string)
    (image_filepath : path) : M string :=
  if_given_and_exists image_filepath
    (λ p, try_except
            (vision_query speech_to_text_output p)
            (λ e, let! _ := st_error ("Error analyzing image: " +:+ str e) in
                  ret "Error analyzing image"))
    (ret no_image).

(** The guard of line 75. *)
Definition synthesis_wanted (doctor_response : string) : bool :=
  truthy_str doctor_response && negb (String.eqb doctor_response no_image).

(** *** lines 73-92: "Generate voice response"

    [voice_filepath] is assigned the fixed file name before the primary
    call, keeps it through the first handler, and is reset to [None] only
    by the second handler. *)
Definition synthesis_stage (doctor_response : string) : M path :=
  if synthesis_wanted doctor_response
  then try_except
         (let! _ := do_elevenlabs doctor_response voice_file in
          ret (Some voice_file))
         (λ e, let! _ := st_error ("Error generating voice response: " +:+ str e) in
               try_except
                 (let! _ := do_gtts doctor_response voice_file in
                  ret (Some voice_file))
                 (λ e2, let! _ := st_error ("Error with fallback TTS: " +:+ str e2) in
                        ret None))
  else ret None.

(** *** [process_inputs] *)
Definition process_inputs (audio_filepath image_filepath : path)
  : M (string * string * path) :=
  let! speech_to_text_output := transcription_stage audio_filepath in
  let! doctor_response := analysis_stage speech_to_text_output image_filepath in
  let! voice_filepath := synthesis_stage doctor_response in
  ret (speech_to_text_output, doctor_response, voice_filepath).

(** ** The session state and the Analyze handler of [main]

    [st.session_state] is a dictionary from attribute names to the
    values [app.py] stores there, each a [str] or [None]. *)

(** [getattr(st.session_state, name, None)]. *)
Definition getattr_or_none (ss : gmap string path) (name : string) : path :=
  match ss !! name with
  | Some v => v
  | None => None
  end.

(** Lines 156-172, the body run when the Analyze button is pressed. The
    spinner only decorates the page and is left out. *)
Definition main_analyze (ss : gmap string path) : M (gmap string path) :=
  let current_audio := getattr_or_none ss "audio_filepath" in
  let current_image := getattr_or_none ss "image_filepath" in
  if negb (truthy current_audio) && negb (truthy current_image)
  then let! _ := st_warning
                   "Please provide either audio input or image input (or both)" in
       ret ss
  else let! (speech_to_text_output, doctor_response, voice_filepath) :=
             process_inputs current_audio current_image in
       ret (<["voice_filepath" := voice_filepath]>
              (<["doctor_response" := Some doctor_response]>
                 (<["speech_to_text" := Some speech_to_text_output]> ss))).

(** [list(st.session_state.keys())]. *)
Definition keys (ss : gmap string path) : list string :=
  (map_to_list ss).*1.

End Pipeline.

(** * The page: the two savers and [main]

    [main] is the script Streamlit runs once per interaction. The values
    of its widgets are the input of a run, [st.session_state] lives through
    the runs, and the calls that only [main] makes (the recorder, the
    temporary files, the image decoder, the elements put on the page) are
    recorded in a second log beside the log of the pipeline. Headings,
    rules, the info box, the footer and the spinner carry no data of the
    program and are left out. *)

(** The content of a file or of an upload. *)
Abbreviation bytes := (list Byte.byte).

(** Keyword arguments that are the same at every call ([disabled=True],
    [use_column_width=True]) are not recorded. *)
Inductive ui_event : Type :=
| UiRecordAudio (file_path : string) (timeout phrase_time_limit : nat)
| UiTempFile (suffix : string)
| UiWrite (name : string) (data : bytes)
| UiImageOpen (data : bytes)
| UiOpenRead (p : string)
| UiSuccess (msg : string)
| UiImage (data : bytes) (caption : string)
| UiTextArea (label value : string) (height : nat)
| UiAudio (data : bytes) (format : string)
| UiDownload (label : string) (data : bytes) (file_name mime : string).

(** What a run of the script has at hand: the two logs, newest event
    first, and the session state. *)
Record State : Type := {
  log : trace;
  page : list ui_event;
  session : gmap string path
}.

(** How [st.experimental_rerun()] ends. It never returns to the script: a
    Streamlit that provides it stops the run there and schedules a new
    one, and a Streamlit that does not provide it raises [AttributeError]
    when the attribute is looked up. *)
Inductive rerun_answer : Type :=
| RerunSignal
| RerunRaises (e : exn).

(** How a run of the script that raised no exception ended: at the end of
    the script, or stopped by the rerun signal. *)
Inductive run_end : Type :=
| Finished
| Rerun.

(** The values the widgets return in one run of the script. *)
Record Widgets : Type := {
  start_recording : bool;
  image_input_method : string;
  uploaded_image : option bytes;
  camera_image : option bytes;
  analyze : bool;
  clear_cache : bool
}.

(** The collaborators of [main]; each answers from the state of the run.
    [named_temporary_file] creates the file and gives its name,
    [write_close] is the write followed by the close that leaving the
    [with] block performs, [open_read] is [open(p, 'rb')] and [read],
    [experimental_rerun] is [st.experimental_rerun()]. *)
Record Host : Type := {
  record_audio : State → string → nat → nat → result unit;
  named_temporary_file : State → string → result string;
  write_close : State → string → bytes → result unit;
  image_open : State → bytes → result unit;
  open_read : State → string → result bytes;
  experimental_rerun : State → rerun_answer
}.

Definition U (A : Type) : Type := State → result A * State.

Definition uret {A} (a : A) : U A := λ s, (Ok a, s).

Definition ubind {A B} (m : U A) (k : A → U B) : U B :=
  λ s, match m s with
       | (Ok a, s') => k a s'
       | (Raise e, s') => (Raise e, s')
       end.

Notation "'let+' x ':=' m 'in' k" := (ubind m (λ x, k))
  (at level 10, x pattern, m at level 100, k at level 200).

(** [try: body  except Exception as e: handler e], on the page. *)
Definition utry_except {A} (body : U A) (handler : exn → U A) : U A :=
  λ s, match body s with
       | (Ok a, s') => (Ok a, s')
       | (Raise e, s') => handler e s'
       end.

(** A call recorded in the log of the page. *)
Definition ui_call {A} (ev : ui_event) (answer : State → result A) : U A :=
  λ s, (answer s,
        {| log := log s; page := ev :: page s; session := session s |}).

(** A computation of the pipeline, run on the log of the pipeline. *)
Definition lift {A} (m : M A) : U A :=
  λ s, match m (log s) with
       | (r, t') => (r, {| log := t'; page := page s; session := session s |})
       end.

(** A handler that takes the session state and gives the new one. The
    session state is an object changed in place: what a handler had
    written before raising would stay. The one handler lifted here, the
    Analyze handler, writes the session state in its last statement
    only. *)
Definition on_session (h : gmap string path → M (gmap string path)) : U unit :=
  λ s, match h (session s) (log s) with
       | (Ok ss', t') =>
           (Ok tt, {| log := t'; page := page s; session := ss' |})
       | (Raise e, t') =>
           (Raise e, {| log := t'; page := page s; session := session s |})
       end.

(** [st.session_state.name = v]. *)
Definition set_attr (name : string) (v : path) : U unit :=
  λ s, (Ok tt, {| log := log s; page := page s;
                  session := <[name := v]> (session s) |}).

(** [getattr(st.session_state, name, None)], read during a run. *)
Definition get_attr (name : string) : U path :=
  λ s, (Ok (getattr_or_none (session s) name), s).

Definition st_success (msg : string) : U unit :=
  ui_call (UiSuccess msg) (λ _, Ok tt).

Definition st_image (data : bytes) (caption : string) : U unit :=
  ui_call (UiImage data caption) (λ _, Ok tt).

Definition st_text_area (label value : string) (height : nat) : U unit :=
  ui_call (UiTextArea label value height) (λ _, Ok tt).

Definition st_audio (data : bytes) (format : string) : U unit :=
  ui_call (UiAudio data format) (λ _, Ok tt).

Definition st_download_button (label : string) (data : bytes)
    (file_name mime : string) : U unit :=
  ui_call (UiDownload label data file_name mime) (λ _, Ok tt).

Section Page.

Variable env : Env.
Variable host : Host.

(** Lines 29-31 and 37-39: the [with] block of the two savers. Nothing is
    caught, and the file was made with [delete=False]. *)
Definition save_temp (suffix : string) (data : bytes) : U string :=
  let+ name := ui_call (UiTempFile suffix) (λ s, named_temporary_file host s suffix) in
  let+ _ := ui_call (UiWrite name data) (λ s, write_close host s name data) in
  uret name.

(** [save_uploaded_image]: the argument is the content of the upload, or
    [None]. *)
Definition save_uploaded_image (uploaded_file : option bytes) : U path :=
  match uploaded_file with
  | Some data => let+ name := save_temp ".jpg" data in uret (Some name)
  | None => uret None
  end.

Definition save_audio_file (audio_bytes : option bytes) : U path :=
  match audio_bytes with
  | Some data => let+ name := save_temp ".wav" data in uret (Some name)
  | None => uret None
  end.

(** Lines 114-123, the Start Recording button. The session state is
    written by the last statement of the [try] block. *)
Definition main_record (w : Widgets) : U unit :=
  if start_recording w
  then utry_except
         (let audio_filepath := "recorded_audio.mp3" in
          let+ _ := ui_call (UiRecordAudio audio_filepath 10 30)
                      (λ s, record_audio host s audio_filepath 10 30) in
          let+ _ := st_success "Recording completed!" in
          set_attr "audio_filepath" (Some audio_filepath))
         (λ e, lift (st_error ("Recording failed: " +:+ str e)))
  else uret tt.

(** Lines 127-153, the image input. No exception is caught here. *)
Definition main_image (w : Widgets) : U unit :=
  if String.eqb (image_input_method w) "Upload Image"
  then match uploaded_image w with
       | Some data =>
           let+ image_filepath := save_uploaded_image (Some data) in
           let+ _ := ui_call (UiImageOpen data) (λ s, image_open host s data) in
           let+ _ := st_image data "Uploaded Image" in
           set_attr "image_filepath" image_filepath
       | None => uret tt
       end
  else if String.eqb (image_input_method w) "Take Photo"
  then match camera_image w with
       | Some data =>
           let+ image_filepath := save_uploaded_image (Some data) in
           let+ _ := st_success "Photo captured successfully!" in
           set_attr "image_filepath" image_filepath
       | None => uret tt
       end
  else uret tt.

(** [if hasattr(st.session_state, name) and st.session_state.name: then_]. *)
Definition if_attr (name : string) (then_ : string → U unit) : U unit :=
  let+ v := get_attr name in
  match v with
  | Some x => if truthy_str x then then_ x else uret tt
  | None => uret tt
  end.

(** Lines 179-197, the transcript and the response. *)
Definition main_results_text : U unit :=
  let+ _ := if_attr "speech_to_text"
              (λ text, st_text_area "Transcribed Text:" text 100) in
  if_attr "doctor_response"
    (λ text, st_text_area "Medical Analysis:" text 150).

(** Lines 199-213, the audio player and the download button. *)
Definition main_results_voice : U unit :=
  if_attr "voice_filepath"
    (λ p, let+ found := lift (os_path_exists env p) in
          if found : bool
          then let+ audio_bytes := ui_call (UiOpenRead p) (λ s, open_read host s p) in
               let+ _ := st_audio audio_bytes "audio/mp3" in
               st_download_button "📥 Download Audio Response" audio_bytes
                                  "doctor_response.mp3" "audio/mp3"
          else uret tt).

(** Lines 176-213, the results. *)
Definition main_results : U unit :=
  let+ _ := main_results_text in
  main_results_voice.

(** [list(st.session_state.keys())], read during a run. *)
Definition session_keys : U (list string) :=
  λ s, (Ok (keys (session s)), s).

(** [del st.session_state[key]]: the key is removed in place, and a key
    that is not there raises [KeyError] (its message here stands for the
    one Streamlit builds from the key). *)
Definition del_item (key : string) : U unit :=
  λ s, match session s !! key with
       | Some _ =>
           (Ok tt, {| log := log s; page := page s;
                      session := delete key (session s) |})
       | None => (Raise (Exception ("KeyError: " +:+ key)), s)
       end.

(** [for key in ks: del st.session_state[key]]. *)
Fixpoint del_each (ks : list string) : U unit :=
  match ks with
  | [] => uret tt
  | key :: ks' => let+ _ := del_item key in del_each ks'
  end.

(** [st.experimental_rerun()], line 231 and the last statement of [main]:
    the script reaches the call, which is logged, and the call does not
    return. How it ends is how the run ends: stopped for a rerun, or with
    the exception raised. *)
Definition st_experimental_rerun : U run_end :=
  λ s, (match experimental_rerun host s with
        | RerunSignal => Ok Rerun
        | RerunRaises e => Raise e
        end,
        {| log := EvRerun :: log s; page := page s; session := session s |}).

(** Lines 226-231, the body run when the Clear Cache button is pressed. *)
Definition main_clear_cache : U run_end :=
  let+ ks := session_keys in
  let+ _ := del_each ks in
  st_experimental_rerun.

(** Lines 96-225: the script up to the Clear Cache button. *)
Definition main_body (w : Widgets) : U unit :=
  let+ _ := main_record w in
  let+ _ := main_image w in
  let+ _ := (if analyze w then on_session (main_analyze env) else uret tt) in
  main_results.

(** [main]: one run of the script. *)
Definition main (w : Widgets) : U run_end :=
  let+ _ := main_body w in
  if clear_cache w then main_clear_cache else uret Finished.

End Page.

(** * Reading the log *)

(** The prompts sent to the vision model, newest first. *)
Fixpoint queries_sent (t : trace) : list string :=
  match t with
  | [] => []
  | EvAnalyze query _ _ :: t' => query :: queries_sent t'
  | _ :: t' => queries_sent t'
  end.

(** The image files handed to [encode_image], newest first. *)
Fixpoint images_encoded (t : trace) : list string :=
  match t with
  | [] => []
  | EvEncodeImage p :: t' => p :: images_encoded t'
  | _ :: t' => images_encoded t'
  end.

(** The text handed to a text-to-speech provider by an event, if any. *)
Definition synthesis_text (ev : event) : option string :=
  match ev with
  | EvElevenlabs text _ => Some text
  | EvGtts text _ => Some text
  | _ => None
  end.

Definition is_raise {A} (r : result A) : bool :=
  match r with
  | Ok _ => false
  | Raise _ => true
  end.

(** Did the call recorded by [ev], made at history [hist], raise? *)
Definition call_raised (env : Env) (hist : trace) (ev : event) : bool :=
  match ev with
  | EvTranscribe key audio model =>
      is_raise (transcribe_with_groq env hist key audio model)
  | EvEncodeImage p => is_raise (encode_image env hist p)
  | EvAnalyze query encoded model =>
      is_raise (analyze_image_with_query env hist query encoded model)
  | EvElevenlabs text out =>
      is_raise (text_to_speech_with_elevenlabs env hist text out)
  | EvGtts text out => is_raise (text_to_speech_with_gtts env hist text out)
  | EvExists _ | EvStError _ | EvStWarning _ | EvRerun => false
  end.

(** The calls among [evs], the events emitted on top of the history
    [base], that raised. *)
Fixpoint failed (env : Env) (base : trace) (evs : list event) : list event :=
  match evs with
  | [] => []
  | ev :: evs' =>
      if call_raised env (evs' ++ base) ev
      then ev :: failed env base evs'
      else failed env base evs'
  end.

(** What became of a call that raised, in a run that returned the
    transcript [stt], the response [dr] and the audio path [vf]: a
    transcription failure left the transcription placeholder, an encoding or
    vision failure left the analysis placeholder, a failure of the primary
    speech provider was followed by the fallback with the same arguments,
    and a failure of the fallback left no audio path. [evs] are the events
    of the run. *)
Definition converted (evs : list event) (stt dr : string) (vf : path)
    (ev : event) : Prop :=
  match ev with
  | EvTranscribe _ _ _ => stt = "Error transcribing audio"
  | EvEncodeImage _ | EvAnalyze _ _ _ => dr = "Error analyzing image"
  | EvElevenlabs text out => EvGtts text out ∈ evs
  | EvGtts _ _ => vf = None
  | EvExists _ | EvStError _ | EvStWarning _ | EvRerun => True
  end.

(** The number of events of [evs] that satisfy [k]. *)
Fixpoint count_if (k : event → bool) (evs : list event) : nat :=
  match evs with
  | [] => 0
  | ev :: evs' => (if k ev then 1 else 0) + count_if k evs'
  end.

Definition is_exists (ev : event) : bool :=
  match ev with EvExists _ => true | _ => false end.
Definition is_transcribe (ev : event) : bool :=
  match ev with EvTranscribe _ _ _ => true | _ => false end.
Definition is_encode (ev : event) : bool :=
  match ev with EvEncodeImage _ => true | _ => false end.
Definition is_analyze (ev : event) : bool :=
  match ev with EvAnalyze _ _ _ => true | _ => false end.
Definition is_elevenlabs (ev : event) : bool :=
  match ev with EvElevenlabs _ _ => true | _ => false end.
Definition is_gtts (ev : event) : bool :=
  match ev with EvGtts _ _ => true | _ => false end.
Definition is_st_error (ev : event) : bool :=
  match ev with EvStError _ => true | _ => false end.

(** The audio players and download buttons on a page, newest first. *)
Fixpoint players (pg : list ui_event) : list ui_event :=
  match pg with
  | [] => []
  | UiAudio data format :: pg' => UiAudio data format :: players pg'
  | UiDownload label data file_name mime :: pg' =>
      UiDownload label data file_name mime :: players pg'
  | _ :: pg' => players pg'
  end.

(** The text areas on a page, as label and text, newest first. *)
Fixpoint text_areas (pg : list ui_event) : list (string * string) :=
  match pg with
  | [] => []
  | UiTextArea label value _ :: pg' => (label, value) :: text_areas pg'
  | _ :: pg' => text_areas pg'
  end.

(** The temporary files created on a page, by suffix, newest first. *)
Fixpoint temp_files (pg : list ui_event) : list string :=
  match pg with
  | [] => []
  | UiTempFile suffix :: pg' => suffix :: temp_files pg'
  | _ :: pg' => temp_files pg'
  end.

(** A computation of the page that leaves the session state as it was,
    whether it returns or raises. *)
Definition keeps_session {A} (m : U A) : Prop :=
  ∀ s, session (snd (m s)) = session s.

(** A computation of the page that removes no key of the session state. *)
Definition keeps_keys {A} (m : U A) : Prop :=
  ∀ s k, is_Some (session s !! k) → is_Some (session (snd (m s)) !! k).

(** * Sample environments *)

(** Every file exists and every service answers. *)
Definition env_ok : Env := {|
  environ_get := λ _, Some "gsk";
  path_exists := λ _ _, true;
  transcribe_with_groq := λ _ _ _ _, Ok "my arm itches";
  encode_image := λ _ _, Ok "aW1hZ2U=";
  analyze_image_with_query := λ _ _ _ _, Ok "With what I see, I think you have a rash";
  text_to_speech_with_elevenlabs := λ _ _ _, Ok tt;
  text_to_speech_with_gtts := λ _ _ _, Ok tt
|}.

(** Every file exists and every service raises. *)
Definition env_down : Env := {|
  environ_get := λ _, None;
  path_exists := λ _ _, true;
  transcribe_with_groq := λ _ _ _ _, Raise (Exception "401");
  encode_image := λ _ _, Raise (Exception "cannot read");
  analyze_image_with_query := λ _ _ _ _, Raise (Exception "503");
  text_to_speech_with_elevenlabs := λ _ _ _, Raise (Exception "quota");
  text_to_speech_with_gtts := λ _ _ _, Raise (Exception "offline")
|}.

(** The services answer, except that both speech providers raise. *)
Definition env_mute : Env := {|
  environ_get := environ_get env_ok;
  path_exists := path_exists env_ok;
  transcribe_with_groq := transcribe_with_groq env_ok;
  encode_image := encode_image env_ok;
  analyze_image_with_query := analyze_image_with_query env_ok;
  text_to_speech_with_elevenlabs := text_to_speech_with_elevenlabs env_down;
  text_to_speech_with_gtts := text_to_speech_with_gtts env_down
|}.

(** Transcription and the vision query raise, the rest answers. *)
Definition env_deaf : Env := {|
  environ_get := environ_get env_ok;
  path_exists := path_exists env_ok;
  transcribe_with_groq := transcribe_with_groq env_down;
  encode_image := encode_image env_ok;
  analyze_image_with_query := analyze_image_with_query env_down;
  text_to_speech_with_elevenlabs := text_to_speech_with_elevenlabs env_ok;
  text_to_speech_with_gtts := text_to_speech_with_gtts env_ok
|}.

(** No file exists. *)
Definition env_no_files : Env := {|
  environ_get := environ_get env_ok;
  path_exists := λ _ _, false;
  transcribe_with_groq := transcribe_with_groq env_ok;
  encode_image := encode_image env_ok;
  analyze_image_with_query := analyze_image_with_query env_ok;
  text_to_speech_with_elevenlabs := text_to_speech_with_elevenlabs env_ok;
  text_to_speech_with_gtts := text_to_speech_with_gtts env_ok
|}.

(** The vision model answers with no text at all. *)
Definition env_blank : Env := {|
  environ_get := environ_get env_ok;
  path_exists := path_exists env_ok;
  transcribe_with_groq := transcribe_with_groq env_ok;
  encode_image := encode_image env_ok;
  analyze_image_with_query := λ _ _ _ _, Ok EmptyString;
  text_to_speech_with_elevenlabs := text_to_speech_with_elevenlabs env_ok;
  text_to_speech_with_gtts := text_to_speech_with_gtts env_ok
|}.

Fixpoint tally (n : nat) : string :=
  match n with
  | 0 => EmptyString
  | S n' => "i" +:+ tally n'
  end.

(** A host on which everything works; the temporary file is named after
    the number of elements already on the page. *)
Definition host_ok : Host := {|
  record_audio := λ _ _ _ _, Ok tt;
  named_temporary_file := λ s suffix,
    Ok ("/tmp/tmp" +:+ tally (length (page s)) +:+ suffix);
  write_close := λ _ _ _, Ok tt;
  image_open := λ _ _, Ok tt;
  open_read := λ _ _, Ok [Byte.x49; Byte.x44; Byte.x33];
  experimental_rerun := λ _, RerunSignal
|}.

(** Everything works, on a Streamlit without [st.experimental_rerun]. *)
Definition host_no_rerun : Host := {|
  record_audio := record_audio host_ok;
  named_temporary_file := named_temporary_file host_ok;
  write_close := write_close host_ok;
  image_open := image_open host_ok;
  open_read := open_read host_ok;
  experimental_rerun := λ _,
    RerunRaises
      (Exception "module 'streamlit' has no attribute 'experimental_rerun'")
|}.

(** No microphone, a full disk, and no decodable image. *)
Definition host_broken : Host := {|
  record_audio := λ _ _ _ _, Raise (Exception "no microphone");
  named_temporary_file := named_temporary_file host_ok;
  write_close := λ _ _ _, Raise (Exception "disk full");
  image_open := λ _ _, Raise (Exception "cannot identify image file");
  open_read := λ _ _, Raise (Exception "permission denied");
  experimental_rerun := experimental_rerun host_ok
|}.

(** Files can be saved, but the upload is no image. *)
Definition host_no_image : Host := {|
  record_audio := record_audio host_ok;
  named_temporary_file := named_temporary_file host_ok;
  write_close := write_close host_ok;
  image_open := image_open host_broken;
  open_read := open_read host_ok;
  experimental_rerun := experimental_rerun host_ok
|}.

Definition start : State := {| log := []; page := []; session := ∅ |}.

Definition idle : Widgets := {|
  start_recording := false;
  image_input_method := "Upload Image";
  uploaded_image := None;
  camera_image := None;
  analyze := false;
  clear_cache := false
|}.

(** * Properties *)

Lemma append_empty_r (s : string) : s +:+ EmptyString = s.
Proof.
  induction s as [|c s IH]; [reflexivity|].
  change (String c (s +:+ EmptyString) = String c s). by rewrite IH.
Qed.

(** ** The guard on a file path *)

Section Guard.

Context (env : Env) {A : Type} (then_ : string → M A) (else_ : M A).

Lemma guard_absent (fp : path) (t : trace) :
  truthy fp = false →
  if_given_and_exists env fp then_ else_ t = else_ t.
Proof.
  destruct fp as [p|]; simpl; [|reflexivity].
  intros Hp. unfold if_given_and_exists. by rewrite Hp.
Qed.

Lemma guard_checked (p : string) (t : trace) :
  truthy_str p = true →
  if_given_and_exists env (Some p) then_ else_ t =
    if path_exists env t p
    then then_ p (EvExists p :: t)
    else else_ (EvExists p :: t).
Proof.
  intros Hp. unfold if_given_and_exists, bind, os_path_exists, call.
  rewrite Hp. by destruct (path_exists env t p).
Qed.

End Guard.

(** ** The three stages, case by case *)

Section Stages.

Variable env : Env.

Lemma transcription_absent a t :
  truthy a = false → transcription_stage env a t = (Ok EmptyString, t).
Proof. intros Ha. unfold transcription_stage. by rewrite guard_absent. Qed.

Lemma transcription_missing p t :
  truthy_str p = true → path_exists env t p = false →
  transcription_stage env (Some p) t = (Ok EmptyString, EvExists p :: t).
Proof.
  intros Hp Hx. unfold transcription_stage.
  by rewrite guard_checked, Hx.
Qed.

Lemma transcription_present p t :
  truthy_str p = true → path_exists env t p = true →
  transcription_stage env (Some p) t =
    let key := environ_get env "GROQ_API_KEY" in
    let t1 := EvTranscribe key p stt_model :: EvExists p :: t in
    match transcribe_with_groq env (EvExists p :: t) key p stt_model with
    | Ok text => (Ok text, t1)
    | Raise e =>
        (Ok "Error transcribing audio",
         EvStError ("Error transcribing audio: " +:+ str e) :: t1)
    end.
Proof.
  intros Hp Hx. unfold transcription_stage.
  rewrite guard_checked, Hx by done.
  unfold try_except, do_transcribe, call. simpl.
  by destruct (transcribe_with_groq _ _ _ _ _).
Qed.

Lemma analysis_absent stt i t :
  truthy i = false → analysis_stage env stt i t = (Ok no_image, t).
Proof. intros Hi. unfold analysis_stage. by rewrite guard_absent. Qed.

Lemma analysis_missing stt q t :
  truthy_str q = true → path_exists env t q = false →
  analysis_stage env stt (Some q) t = (Ok no_image, EvExists q :: t).
Proof.
  intros Hq Hx. unfold analysis_stage.
  by rewrite guard_checked, Hx.
Qed.

Lemma analysis_present stt q t :
  truthy_str q = true → path_exists env t q = true →
  analysis_stage env stt (Some q) t =
    match vision_query env stt q (EvExists q :: t) with
    | (Ok response, t1) => (Ok response, t1)
    | (Raise e, t1) =>
        (Ok "Error analyzing image",
         EvStError ("Error analyzing image: " +:+ str e) :: t1)
    end.
Proof.
  intros Hq Hx. unfold analysis_stage.
  rewrite guard_checked, Hx by done.
  unfold try_except.
  by destruct (vision_query _ _ _ _) as [[response|e] t1].
Qed.

Lemma vision_query_run stt q t :
  vision_query env stt q t =
    match encode_image env t q with
    | Ok encoded =>
        (analyze_image_with_query env (EvEncodeImage q :: t)
           (system_prompt +:+ stt) encoded vision_model,
         EvAnalyze (system_prompt +:+ stt) encoded vision_model
           :: EvEncodeImage q :: t)
    | Raise e => (Raise e, EvEncodeImage q :: t)
    end.
Proof.
  unfold vision_query, bind, do_encode_image, do_analyze, call.
  by destruct (encode_image env t q).
Qed.

Lemma synthesis_skipped dr t :
  synthesis_wanted dr = false → synthesis_stage env dr t = (Ok None, t).
Proof. intros Hw. unfold synthesis_stage. by rewrite Hw. Qed.

Lemma synthesis_run dr t :
  synthesis_wanted dr = true →
  synthesis_stage env dr t =
    let t1 := EvElevenlabs dr voice_file :: t in
    match text_to_speech_with_elevenlabs env t dr voice_file with
    | Ok _ => (Ok (Some voice_file), t1)
    | Raise e =>
        let t2 := EvStError ("Error generating voice response: " +:+ str e) :: t1 in
        let t3 := EvGtts dr voice_file :: t2 in
        match text_to_speech_with_gtts env t2 dr voice_file with
        | Ok _ => (Ok (Some voice_file), t3)
        | Raise e2 =>
            (Ok None, EvStError ("Error with fallback TTS: " +:+ str e2) :: t3)
        end
    end.
Proof.
  intros Hw. unfold synthesis_stage. rewrite Hw.
  unfold try_except, bind, do_elevenlabs, do_gtts, st_error, call, ret.
  destruct (text_to_speech_with_elevenlabs _ _ _ _); simpl; [done|].
  by destruct (text_to_speech_with_gtts _ _ _ _).
Qed.

Lemma synthesis_wanted_no_image : synthesis_wanted no_image = false.
Proof. reflexivity. Qed.

(** [process_inputs] is its three stages in sequence. *)
Lemma process_inputs_run a i t stt t0 dr t1 :
  transcription_stage env a t = (Ok stt, t0) →
  analysis_stage env stt i t0 = (Ok dr, t1) →
  process_inputs env a i t =
    match synthesis_stage env dr t1 with
    | (Ok vf, t2) => (Ok (stt, dr, vf), t2)
    | (Raise e, t2) => (Raise e, t2)
    end.
Proof.
  intros Hs Hd. unfold process_inputs, bind. rewrite Hs, Hd.
  by destruct (synthesis_stage env dr t1) as [[vf|e] t2].
Qed.

End Stages.

(** Rewrite a run of [process_inputs] from the runs of its first two stages. *)
Ltac run_stages Hs Hd :=
  let H := fresh in
  pose proof (process_inputs_run _ _ _ _ _ _ _ _ Hs Hd) as H;
  rewrite H; clear H.

(** Case analysis on the guard of the synthesis stage and on the two
    speech providers. *)
Ltac run_synthesis :=
  match goal with
  | |- context [synthesis_stage _ ?dr _] =>
      destruct (synthesis_wanted dr) eqn:?;
      [ rewrite synthesis_run by done; cbv zeta;
        destruct (text_to_speech_with_elevenlabs _ _ _ _);
        [|destruct (text_to_speech_with_gtts _ _ _ _)]
      | rewrite synthesis_skipped by done ]
  end.

(** ** What each stage adds to the log *)

Lemma failed_app env base xs ys :
  failed env base (xs ++ ys) = failed env (ys ++ base) xs ++ failed env base ys.
Proof.
  induction xs as [|x xs IH]; simpl; [reflexivity|].
  rewrite <- app_assoc, IH. by destruct (call_raised _ _ _).
Qed.

Section Logs.

Variable env : Env.

(** The transcription stage always returns; the calls it makes are to
    the file system and the transcription service, and a failure of that
    service leaves the placeholder. *)
Lemma transcription_stage_log a t :
  ∃ stt evs,
    transcription_stage env a t = (Ok stt, evs ++ t)
    ∧ Forall (λ ev, synthesis_text ev = None) evs
    ∧ ∀ all dr vf, Forall (converted all stt dr vf) (failed env t evs).
Proof.
  destruct a as [p|]; [destruct (truthy_str p) eqn:Hp|].
  - destruct (path_exists env t p) eqn:Hx.
    + rewrite transcription_present by done. cbv zeta.
      destruct (transcribe_with_groq _ _ _ _ _) as [text|e] eqn:Hc.
      * exists text, [EvTranscribe (environ_get env "GROQ_API_KEY") p stt_model;
                      EvExists p].
        split; [done|]. split; [by repeat constructor|].
        intros. simpl. rewrite Hc. simpl. constructor.
      * eexists _, [EvStError _; EvTranscribe _ p stt_model; EvExists p].
        split; [done|]. split; [by repeat constructor|].
        intros. simpl. rewrite Hc. simpl. by repeat constructor.
    + rewrite transcription_missing by done.
      exists EmptyString, [EvExists p]. by repeat split; repeat constructor.
  - rewrite transcription_absent by done.
    exists EmptyString, []. by repeat split; repeat constructor.
  - exists EmptyString, []. by repeat split; repeat constructor.
Qed.

(** The analysis stage always returns; it makes no speech call, and a
    failure of the encoder or of the vision model leaves the
    placeholder. *)
Lemma analysis_stage_log stt i t :
  ∃ dr evs,
    analysis_stage env stt i t = (Ok dr, evs ++ t)
    ∧ Forall (λ ev, synthesis_text ev = None) evs
    ∧ ∀ all stt' vf, Forall (converted all stt' dr vf) (failed env t evs).
Proof.
  destruct i as [q|]; [destruct (truthy_str q) eqn:Hq|].
  - destruct (path_exists env t q) eqn:Hx.
    + rewrite analysis_present, vision_query_run by done.
      destruct (encode_image _ _ _) as [encoded|e] eqn:Hc.
      * destruct (analyze_image_with_query _ _ _ _ _) as [dr|e] eqn:Hc'.
        -- exists dr, [EvAnalyze (system_prompt +:+ stt) encoded vision_model;
                       EvEncodeImage q; EvExists q].
           split; [done|]. split; [by repeat constructor|].
           intros. simpl. rewrite Hc, Hc'. simpl. constructor.
        -- eexists _, [EvStError _;
                       EvAnalyze (system_prompt +:+ stt) encoded vision_model;
                       EvEncodeImage q; EvExists q].
           split; [done|]. split; [by repeat constructor|].
           intros. simpl. rewrite Hc, Hc'. simpl. by repeat constructor.
      * eexists _, [EvStError _; EvEncodeImage q; EvExists q].
        split; [done|]. split; [by repeat constructor|].
        intros. simpl. rewrite Hc. simpl. by repeat constructor.
    + rewrite analysis_missing by done.
      exists no_image, [EvExists q]. by repeat split; repeat constructor.
  - rewrite analysis_absent by done.
    exists no_image, []. by repeat split; repeat constructor.
  - exists no_image, []. by repeat split; repeat constructor.
Qed.

(** The synthesis stage always returns; every text it hands to a speech
    provider is the response, which then passed the guard; a failed
    primary call is followed by the fallback call with the same
    arguments, and a failed fallback leaves no audio path. *)
Lemma synthesis_stage_log dr t :
  ∃ vf evs,
    synthesis_stage env dr t = (Ok vf, evs ++ t)
    ∧ Forall (λ ev, ∀ text, synthesis_text ev = Some text →
                    text = dr ∧ synthesis_wanted dr = true) evs
    ∧ ∀ before stt dr',
        Forall (converted (evs ++ before) stt dr' vf) (failed env t evs).
Proof.
  destruct (synthesis_wanted dr) eqn:Hw.
  - rewrite synthesis_run by done. cbv zeta.
    destruct (text_to_speech_with_elevenlabs _ _ _ _) as [[]|e] eqn:Hc.
    + exists (Some voice_file), [EvElevenlabs dr voice_file].
      split; [done|]. split.
      * repeat constructor; simpl in *; congruence.
      * intros. simpl. rewrite Hc. simpl. constructor.
    + destruct (text_to_speech_with_gtts _ _ _ _) as [[]|e2] eqn:Hc'.
      * eexists (Some voice_file),
          [EvGtts dr voice_file; EvStError _; EvElevenlabs dr voice_file].
        split; [done|]. split.
        -- repeat constructor; simpl in *; congruence.
        -- intros. simpl. rewrite Hc, Hc'. simpl.
           by repeat constructor.
      * eexists None,
          [EvStError _; EvGtts dr voice_file; EvStError _;
           EvElevenlabs dr voice_file].
        split; [done|]. split.
        -- repeat constructor; simpl in *; congruence.
        -- intros. simpl. rewrite Hc, Hc'. simpl.
           by repeat constructor.
  - rewrite synthesis_skipped by done.
    exists None, []. by repeat split; repeat constructor.
Qed.

Lemma converted_no_synthesis all all' stt dr vf vf' ev :
  synthesis_text ev = None →
  converted all stt dr vf ev → converted all' stt dr vf' ev.
Proof. by destruct ev. Qed.

(** [process_inputs] always returns a triple; every call that raised was
    converted, and the no-image sentinel was never handed to a speech
    provider. *)
Lemma process_inputs_log a i t :
  ∃ stt dr vf evs,
    process_inputs env a i t = (Ok (stt, dr, vf), evs ++ t)
    ∧ Forall (converted evs stt dr vf) (failed env t evs)
    ∧ Forall (λ ev, synthesis_text ev ≠ Some no_image) evs.
Proof.
  destruct (transcription_stage_log a t) as (stt & evs1 & Hs & Hn1 & Hf1).
  destruct (analysis_stage_log stt i (evs1 ++ t)) as (dr & evs2 & Hd & Hn2 & Hf2).
  destruct (synthesis_stage_log dr (evs2 ++ evs1 ++ t))
    as (vf & evs3 & Hv & Hn3 & Hf3).
  exists stt, dr, vf, (evs3 ++ evs2 ++ evs1).
  split; [|split].
  - run_stages Hs Hd. rewrite Hv. by rewrite <- !app_assoc.
  - rewrite !failed_app, !Forall_app, <- app_assoc. auto.
  - rewrite !Forall_app. split; [|split].
    + eapply Forall_impl; [exact Hn3|]. simpl. intros ev Hev Heq.
      destruct (Hev _ Heq) as [<- Hw]. discriminate Hw.
    + eapply Forall_impl; [exact Hn2|]. simpl. congruence.
    + eapply Forall_impl; [exact Hn1|]. simpl. congruence.
Qed.

End Logs.

(** ** Runs on the sample environments *)

Example run_ok :
  process_inputs env_ok (Some "recorded_audio.mp3") (Some "/tmp/a.jpg") [] =
    (Ok ("my arm itches", "With what I see, I think you have a rash",
         Some "doctor_response.mp3"),
     [EvElevenlabs "With what I see, I think you have a rash" "doctor_response.mp3";
      EvAnalyze (system_prompt +:+ "my arm itches") "aW1hZ2U="
                "meta-llama/llama-4-scout-17b-16e-instruct";
      EvEncodeImage "/tmp/a.jpg";
      EvExists "/tmp/a.jpg";
      EvTranscribe (Some "gsk") "recorded_audio.mp3" "whisper-large-v3";
      EvExists "recorded_audio.mp3"]).
Proof. reflexivity. Qed.

Example run_down :
  process_inputs env_down (Some "recorded_audio.mp3") (Some "/tmp/a.jpg") [] =
    (Ok ("Error transcribing audio", "Error analyzing image", None),
     [EvStError "Error with fallback TTS: offline";
      EvGtts "Error analyzing image" "doctor_response.mp3";
      EvStError "Error generating voice response: quota";
      EvElevenlabs "Error analyzing image" "doctor_response.mp3";
      EvStError "Error analyzing image: cannot read";
      EvEncodeImage "/tmp/a.jpg";
      EvExists "/tmp/a.jpg";
      EvStError "Error transcribing audio: 401";
      EvTranscribe None "recorded_audio.mp3" "whisper-large-v3";
      EvExists "recorded_audio.mp3"]).
Proof. reflexivity. Qed.

Example failed_down :
  failed env_down []
    (snd (process_inputs env_down (Some "recorded_audio.mp3")
            (Some "/tmp/a.jpg") [])) =
    [EvGtts "Error analyzing image" "doctor_response.mp3";
     EvElevenlabs "Error analyzing image" "doctor_response.mp3";
     EvEncodeImage "/tmp/a.jpg";
     EvTranscribe None "recorded_audio.mp3" "whisper-large-v3"].
Proof. reflexivity. Qed.

Example run_empty_response :
  process_inputs
    {| environ_get := environ_get env_ok;
       path_exists := path_exists env_ok;
       transcribe_with_groq := transcribe_with_groq env_ok;
       encode_image := encode_image env_ok;
       analyze_image_with_query := λ _ _ _ _, Ok EmptyString;
       text_to_speech_with_elevenlabs := text_to_speech_with_elevenlabs env_ok;
       text_to_speech_with_gtts := text_to_speech_with_gtts env_ok |}
    None (Some "/tmp/a.jpg") [] =
    (Ok (EmptyString, EmptyString, None),
     [EvAnalyze system_prompt "aW1hZ2U=" "meta-llama/llama-4-scout-17b-16e-instruct";
      EvEncodeImage "/tmp/a.jpg";
      EvExists "/tmp/a.jpg"]).
Proof. reflexivity. Qed.

Example analyze_without_input :
  main_analyze env_ok {[ "voice_filepath" := None ]} [] =
    (Ok {[ "voice_filepath" := None ]},
     [EvStWarning "Please provide either audio input or image input (or both)"]).
Proof. reflexivity. Qed.

Example analyze_with_image :
  main_analyze env_ok {[ "image_filepath" := Some "/tmp/a.jpg" ]} [] =
    (Ok (<["voice_filepath" := Some "doctor_response.mp3"]>
           (<["doctor_response" := Some "With what I see, I think you have a rash"]>
              (<["speech_to_text" := Some EmptyString]>
                 {[ "image_filepath" := Some "/tmp/a.jpg" ]}))),
     [EvElevenlabs "With what I see, I think you have a rash" "doctor_response.mp3";
      EvAnalyze system_prompt "aW1hZ2U=" "meta-llama/llama-4-scout-17b-16e-instruct";
      EvEncodeImage "/tmp/a.jpg";
      EvExists "/tmp/a.jpg"]).
Proof. reflexivity. Qed.

Example clear_cache_run :
  main_clear_cache host_ok
    {| log := []; page := [];
       session := <["audio_filepath" := Some "recorded_audio.mp3"]>
                    {[ "voice_filepath" := None ]} |} =
    (Ok Rerun, {| log := [EvRerun]; page := []; session := ∅ |}).
Proof. reflexivity. Qed.

Example del_item_missing :
  del_item "speech_to_text"
    {| log := []; page := []; session := {[ "voice_filepath" := None ]} |} =
    (Raise (Exception "KeyError: speech_to_text"),
     {| log := []; page := []; session := {[ "voice_filepath" := None ]} |}).
Proof. reflexivity. Qed.

Example del_each_twice :
  del_each ["voice_filepath"; "voice_filepath"]
    {| log := []; page := []; session := {[ "voice_filepath" := None ]} |} =
    (Raise (Exception "KeyError: voice_filepath"),
     {| log := []; page := []; session := ∅ |}).
Proof. reflexivity. Qed.

Example voice_file_gone :
  main_results_voice env_no_files host_ok
    {| log := []; page := [];
       session := {[ "voice_filepath" := Some "doctor_response.mp3" ]} |} =
    (Ok tt,
     {| log := [EvExists "doctor_response.mp3"]; page := [];
        session := {[ "voice_filepath" := Some "doctor_response.mp3" ]} |}).
Proof. reflexivity. Qed.

Example clear_cache_without_rerun :
  main env_ok host_no_rerun
    {| start_recording := false; image_input_method := "Upload Image";
       uploaded_image := None; camera_image := None;
       analyze := false; clear_cache := true |}
    {| log := []; page := [];
       session := {[ "speech_to_text" := Some "my arm itches" ]} |} =
    (Raise (Exception "module 'streamlit' has no attribute 'experimental_rerun'"),
     {| log := [EvRerun];
        page := [UiTextArea "Transcribed Text:" "my arm itches" 100];
        session := ∅ |}).
Proof. reflexivity. Qed.

Example main_run :
  let s' := snd (main env_ok host_ok
                   {| start_recording := true; image_input_method := "Upload Image";
                      uploaded_image := Some [Byte.xff]; camera_image := None;
                      analyze := true; clear_cache := false |} start) in
  log s' =
    [EvExists "doctor_response.mp3";
     EvElevenlabs "With what I see, I think you have a rash" "doctor_response.mp3";
     EvAnalyze (system_prompt +:+ "my arm itches") "aW1hZ2U="
       "meta-llama/llama-4-scout-17b-16e-instruct";
     EvEncodeImage "/tmp/tmpii.jpg";
     EvExists "/tmp/tmpii.jpg";
     EvTranscribe (Some "gsk") "recorded_audio.mp3" "whisper-large-v3";
     EvExists "recorded_audio.mp3"]
  ∧ page s' =
      [UiDownload "📥 Download Audio Response" [Byte.x49; Byte.x44; Byte.x33]
         "doctor_response.mp3" "audio/mp3";
       UiAudio [Byte.x49; Byte.x44; Byte.x33] "audio/mp3";
       UiOpenRead "doctor_response.mp3";
       UiTextArea "Medical Analysis:" "With what I see, I think you have a rash" 150;
       UiTextArea "Transcribed Text:" "my arm itches" 100;
       UiImage [Byte.xff] "Uploaded Image";
       UiImageOpen [Byte.xff];
       UiWrite "/tmp/tmpii.jpg" [Byte.xff];
       UiTempFile ".jpg";
       UiSuccess "Recording completed!";
       UiRecordAudio "recorded_audio.mp3" 10 30].
Proof. split; reflexivity. Qed.

Example main_run_disk_full :
  main env_ok host_broken
    {| start_recording := false; image_input_method := "Take Photo";
       uploaded_image := None; camera_image := Some [Byte.xff];
       analyze := true; clear_cache := true |} start =
    (Raise (Exception "disk full"),
     {| log := [];
        page := [UiWrite "/tmp/tmp.jpg" [Byte.xff]; UiTempFile ".jpg"];
        session := ∅ |}).
Proof. reflexivity. Qed.

(** ** The pipeline *)

(** C1. When neither an audio path nor an image path is given,
    [process_inputs] returns the empty transcript, the response
    "No image provided for me to analyze" and no audio path, and it makes
    no call at all: the log is left as it was, so nothing is transcribed,
    analysed or synthesised. *)
Theorem no_input_short_circuit (env : Env) (a i : path) (t : trace) :
  truthy a = false → truthy i = false →
  process_inputs env a i t =
    (Ok (EmptyString, "No image provided for me to analyze", None), t).
Proof.
  intros Ha Hi.
  rewrite (process_inputs_run env a i t EmptyString t no_image t)
    by auto using transcription_absent, analysis_absent.
  by rewrite synthesis_skipped.
Qed.

Lemma no_input_short_circuit_witness :
  process_inputs env_down None (Some EmptyString) [EvRerun] =
    (Ok (EmptyString, "No image provided for me to analyze", None), [EvRerun]).
Proof. apply no_input_short_circuit; reflexivity. Defined.

(** C9. With an audio file present and no image given, [process_inputs]
    still calls the transcription service and returns its transcript (or
    the transcription placeholder), while the response is the no-image
    sentinel, the audio path is [None] and no speech provider is called. *)
Theorem audio_only_yields_sentinel (env : Env) (p : string) (i : path)
    (t : trace) :
  truthy_str p = true → path_exists env t p = true → truthy i = false →
  let key := environ_get env "GROQ_API_KEY" in
  let t1 := EvTranscribe key p "whisper-large-v3" :: EvExists p :: t in
  process_inputs env (Some p) i t =
    match transcribe_with_groq env (EvExists p :: t) key p "whisper-large-v3" with
    | Ok text =>
        (Ok (text, "No image provided for me to analyze", None), t1)
    | Raise e =>
        (Ok ("Error transcribing audio",
             "No image provided for me to analyze", None),
         EvStError ("Error transcribing audio: " +:+ str e) :: t1)
    end.
Proof.
  intros Hp Hx Hi key t1. subst key t1.
  pose proof (transcription_present env p t Hp Hx) as Hs.
  cbv zeta in Hs. unfold stt_model in Hs.
  destruct (transcribe_with_groq env (EvExists p :: t) _ p "whisper-large-v3")
    as [text|e].
  - rewrite (process_inputs_run env _ i t _ _ no_image _ Hs)
      by by apply analysis_absent.
    by rewrite synthesis_skipped.
  - rewrite (process_inputs_run env _ i t _ _ no_image _ Hs)
      by by apply analysis_absent.
    by rewrite synthesis_skipped.
Qed.

Lemma audio_only_yields_sentinel_witness :
  process_inputs env_ok (Some "recorded_audio.mp3") None [] =
    (Ok ("my arm itches", "No image provided for me to analyze", None),
     [EvTranscribe (Some "gsk") "recorded_audio.mp3" "whisper-large-v3";
      EvExists "recorded_audio.mp3"]).
Proof.
  apply (audio_only_yields_sentinel env_ok "recorded_audio.mp3" None []);
    reflexivity.
Defined.

(** C4. With an image file present and no audio given, the only prompt
    [process_inputs] sends to the vision model is the fixed system prompt
    itself, nothing appended; it is sent once the image has been encoded. *)
Theorem image_only_prompt (env : Env) (a : path) (q : string) (t : trace) :
  truthy a = false → truthy_str q = true → path_exists env t q = true →
  queries_sent (snd (process_inputs env a (Some q) t)) =
    match encode_image env (EvExists q :: t) q with
    | Ok _ => system_prompt :: queries_sent t
    | Raise _ => queries_sent t
    end.
Proof.
  intros Ha Hq Hx.
  pose proof (transcription_absent env a t Ha) as Hs.
  pose proof (analysis_present env EmptyString q t Hq Hx) as Hd.
  rewrite vision_query_run, append_empty_r in Hd.
  destruct (encode_image env (EvExists q :: t) q) as [encoded|e].
  - destruct (analyze_image_with_query _ _ _ _ _) as [dr|e];
      run_stages Hs Hd; by run_synthesis.
  - run_stages Hs Hd. by run_synthesis.
Qed.

Lemma image_only_prompt_witness :
  queries_sent (snd (process_inputs env_ok None (Some "/tmp/a.jpg") [])) =
    [system_prompt].
Proof.
  apply (image_only_prompt env_ok None "/tmp/a.jpg" []); reflexivity.
Defined.

(** C10. A path whose file is not on disk is treated as an absent input.
    For a missing audio file the run is the run with no audio path, made
    after the one existence check: the transcript is empty, the
    transcription service is not called and no error is reported. For a
    missing image file the result is the result with no image path: the
    no-image sentinel and no audio path, with no call to the encoder, the
    vision model or a speech provider. *)
Theorem missing_file_is_absent (env : Env) (p : string) (i : path) (t : trace)
    (a : path) (q : string) (t' : trace) (stt : string) (t0 : trace) :
  truthy_str p = true → path_exists env t p = false →
  transcription_stage env a t' = (Ok stt, t0) →
  truthy_str q = true → path_exists env t0 q = false →
  (process_inputs env (Some p) i t = process_inputs env None i (EvExists p :: t)
   ∧ ∃ dr vf t1, process_inputs env (Some p) i t = (Ok (EmptyString, dr, vf), t1))
  ∧ (process_inputs env a (Some q) t' =
       (Ok (stt, "No image provided for me to analyze", None), EvExists q :: t0)
     ∧ process_inputs env a None t' =
         (Ok (stt, "No image provided for me to analyze", None), t0)).
Proof.
  intros Hp Hx Hs Hq Hx'. split; [split|split].
  - unfold process_inputs, bind.
    by rewrite transcription_missing, transcription_absent.
  - pose proof (transcription_missing env p t Hp Hx) as Hs0.
    destruct (analysis_stage_log env EmptyString i (EvExists p :: t))
      as (dr & evs2 & Hd & _).
    destruct (synthesis_stage_log env dr (evs2 ++ EvExists p :: t))
      as (vf & evs3 & Hv & _).
    exists dr, vf, (evs3 ++ evs2 ++ EvExists p :: t).
    run_stages Hs0 Hd. by rewrite Hv.
  - pose proof (analysis_missing env stt q t0 Hq Hx') as Hd.
    run_stages Hs Hd. by rewrite synthesis_skipped.
  - pose proof (analysis_absent env stt None t0 eq_refl) as Hd.
    run_stages Hs Hd. by rewrite synthesis_skipped.
Qed.

Lemma missing_file_is_absent_witness :
  process_inputs env_no_files (Some "recorded_audio.mp3") None [] =
    (Ok (EmptyString, "No image provided for me to analyze", None),
     [EvExists "recorded_audio.mp3"])
  ∧ process_inputs env_no_files None (Some "/tmp/a.jpg") [] =
      (Ok (EmptyString, "No image provided for me to analyze", None),
       [EvExists "/tmp/a.jpg"]).
Proof.
  destruct (missing_file_is_absent env_no_files "recorded_audio.mp3" None []
              None "/tmp/a.jpg" [] EmptyString [])
    as [[Haudio _] [Himage _]]; try reflexivity.
  split; [rewrite Haudio; reflexivity | exact Himage].
Defined.

(** C3. When the audio file is present and the transcription call raises,
    the transcript returned is "Error transcribing audio"; and when an image
    file is present as well, the analysis goes ahead: the image is handed to
    the encoder and, once encoded, the prompt sent to the vision model is
    the system prompt followed by that error string. *)
Theorem transcription_failure_continues (env : Env) (p : string) (i : path)
    (t : trace) (e : exn) :
  truthy_str p = true → path_exists env t p = true →
  let key := environ_get env "GROQ_API_KEY" in
  transcribe_with_groq env (EvExists p :: t) key p "whisper-large-v3" = Raise e →
  let t1 := EvStError ("Error transcribing audio: " +:+ str e)
              :: EvTranscribe key p "whisper-large-v3" :: EvExists p :: t in
  (∃ dr vf, fst (process_inputs env (Some p) i t) =
              Ok ("Error transcribing audio", dr, vf))
  ∧ ∀ q, i = Some q → truthy_str q = true → path_exists env t1 q = true →
      let t' := snd (process_inputs env (Some p) i t) in
      images_encoded t' = q :: images_encoded t
      ∧ queries_sent t' =
          match encode_image env (EvExists q :: t1) q with
          | Ok _ => (system_prompt +:+ "Error transcribing audio") :: queries_sent t
          | Raise _ => queries_sent t
          end.
Proof.
  intros Hp Hx key Hc t1.
  pose proof (transcription_present env p t Hp Hx) as Hs.
  cbv zeta in Hs. unfold stt_model in Hs. fold key in Hs.
  rewrite Hc in Hs. fold t1 in Hs. split.
  - destruct (analysis_stage_log env "Error transcribing audio" i t1)
      as (dr & evs2 & Hd & _).
    destruct (synthesis_stage_log env dr (evs2 ++ t1)) as (vf & evs3 & Hv & _).
    exists dr, vf. run_stages Hs Hd. by rewrite Hv.
  - intros q -> Hq Hx' t'. subst t'.
    pose proof (analysis_present env "Error transcribing audio" q t1 Hq Hx')
      as Hd.
    rewrite vision_query_run in Hd.
    destruct (encode_image env (EvExists q :: t1) q) as [encoded|e1].
    + destruct (analyze_image_with_query _ _ _ _ _) as [dr|e2];
        run_stages Hs Hd; by run_synthesis.
    + run_stages Hs Hd. by run_synthesis.
Qed.

Lemma transcription_failure_continues_witness :
  fst (process_inputs env_deaf (Some "recorded_audio.mp3") (Some "/tmp/a.jpg") [])
    = Ok ("Error transcribing audio", "Error analyzing image",
          Some "doctor_response.mp3")
  ∧ queries_sent
      (snd (process_inputs env_deaf (Some "recorded_audio.mp3")
              (Some "/tmp/a.jpg") [])) =
      [system_prompt +:+ "Error transcribing audio"].
Proof.
  destruct (transcription_failure_continues env_deaf "recorded_audio.mp3"
              (Some "/tmp/a.jpg") [] (Exception "401") eq_refl eq_refl eq_refl)
    as [_ Himage].
  destruct (Himage "/tmp/a.jpg" eq_refl eq_refl eq_refl) as [_ Hquery].
  split; [reflexivity | exact Hquery].
Defined.

(** C2. When a response exists and synthesis is attempted, a failure of the
    primary provider (ElevenLabs) is reported and followed by a call of the
    fallback (gTTS) with the same text and the same output path; if the
    fallback raises too, the audio path returned is [None]; in both cases
    [process_inputs] returns its triple and raises nothing. *)
Theorem synthesis_fallback (env : Env) (a i : path) (t : trace)
    (stt : string) (t0 : trace) (dr : string) (t1 : trace) (e : exn) :
  transcription_stage env a t = (Ok stt, t0) →
  analysis_stage env stt i t0 = (Ok dr, t1) →
  synthesis_wanted dr = true →
  text_to_speech_with_elevenlabs env t1 dr "doctor_response.mp3" = Raise e →
  let t2 := EvStError ("Error generating voice response: " +:+ str e)
              :: EvElevenlabs dr "doctor_response.mp3" :: t1 in
  let t3 := EvGtts dr "doctor_response.mp3" :: t2 in
  process_inputs env a i t =
    match text_to_speech_with_gtts env t2 dr "doctor_response.mp3" with
    | Ok _ => (Ok (stt, dr, Some "doctor_response.mp3"), t3)
    | Raise e2 =>
        (Ok (stt, dr, None),
         EvStError ("Error with fallback TTS: " +:+ str e2) :: t3)
    end.
Proof.
  intros Hs Hd Hw Hc t2 t3. subst t2 t3.
  run_stages Hs Hd. rewrite synthesis_run by done. cbv zeta.
  unfold voice_file. rewrite Hc.
  by destruct (text_to_speech_with_gtts _ _ _ _).
Qed.

Lemma synthesis_fallback_witness :
  process_inputs env_mute None (Some "/tmp/a.jpg") [] =
    (Ok (EmptyString, "With what I see, I think you have a rash", None),
     [EvStError "Error with fallback TTS: offline";
      EvGtts "With what I see, I think you have a rash" "doctor_response.mp3";
      EvStError "Error generating voice response: quota";
      EvElevenlabs "With what I see, I think you have a rash" "doctor_response.mp3";
      EvAnalyze system_prompt "aW1hZ2U=" "meta-llama/llama-4-scout-17b-16e-instruct";
      EvEncodeImage "/tmp/a.jpg";
      EvExists "/tmp/a.jpg"]).
Proof.
  apply (synthesis_fallback env_mute None (Some "/tmp/a.jpg") [] EmptyString []
           "With what I see, I think you have a rash"
           [EvAnalyze system_prompt "aW1hZ2U="
              "meta-llama/llama-4-scout-17b-16e-instruct";
            EvEncodeImage "/tmp/a.jpg";
            EvExists "/tmp/a.jpg"]
           (Exception "quota"));
    reflexivity.
Defined.

(** C5. Only the no-image sentinel skips synthesis among the placeholders:
    when the image file is present and its analysis raises (in the encoder
    or in the vision model), the response is "Error analyzing image" and
    that string is handed to the primary speech provider, then to the
    fallback if the primary raises; whereas in no run at all is the
    no-image sentinel handed to a speech provider. *)
Theorem analysis_failure_is_synthesised (env : Env) (a : path) (q : string)
    (t : trace) (stt : string) (t0 : trace) (e : exn) (t1 : trace) :
  transcription_stage env a t = (Ok stt, t0) →
  truthy_str q = true → path_exists env t0 q = true →
  vision_query env stt q (EvExists q :: t0) = (Raise e, t1) →
  let dr := "Error analyzing image" in
  let out := "doctor_response.mp3" in
  let t2 := EvStError ("Error analyzing image: " +:+ str e) :: t1 in
  let t3 := EvElevenlabs dr out :: t2 in
  process_inputs env a (Some q) t =
    match text_to_speech_with_elevenlabs env t2 dr out with
    | Ok _ => (Ok (stt, dr, Some out), t3)
    | Raise e1 =>
        let t4 := EvStError ("Error generating voice response: " +:+ str e1) :: t3 in
        let t5 := EvGtts dr out :: t4 in
        match text_to_speech_with_gtts env t4 dr out with
        | Ok _ => (Ok (stt, dr, Some out), t5)
        | Raise e2 =>
            (Ok (stt, dr, None),
             EvStError ("Error with fallback TTS: " +:+ str e2) :: t5)
        end
    end
  ∧ ∀ env' a' i' t',
      ∃ evs, snd (process_inputs env' a' i' t') = evs ++ t'
             ∧ Forall (λ ev, synthesis_text ev ≠
                               Some "No image provided for me to analyze") evs.
Proof.
  intros Hs Hq Hx Hc dr out t2 t3. subst dr out t2 t3. split.
  - pose proof (analysis_present env stt q t0 Hq Hx) as Hd.
    rewrite Hc in Hd. run_stages Hs Hd.
    rewrite synthesis_run by done. cbv zeta. unfold voice_file.
    destruct (text_to_speech_with_elevenlabs _ _ _ _); [done|].
    by destruct (text_to_speech_with_gtts _ _ _ _).
  - intros env' a' i' t'.
    destruct (process_inputs_log env' a' i' t')
      as (stt' & dr' & vf' & evs & Hrun & _ & Hno).
    exists evs. by rewrite Hrun.
Qed.

Lemma analysis_failure_is_synthesised_witness :
  process_inputs env_deaf None (Some "/tmp/a.jpg") [] =
    (Ok (EmptyString, "Error analyzing image", Some "doctor_response.mp3"),
     [EvElevenlabs "Error analyzing image" "doctor_response.mp3";
      EvStError "Error analyzing image: 503";
      EvAnalyze system_prompt "aW1hZ2U=" "meta-llama/llama-4-scout-17b-16e-instruct";
      EvEncodeImage "/tmp/a.jpg";
      EvExists "/tmp/a.jpg"]).
Proof.
  destruct (analysis_failure_is_synthesised env_deaf None "/tmp/a.jpg" [] EmptyString []
              (Exception "503")
              [EvAnalyze system_prompt "aW1hZ2U="
                 "meta-llama/llama-4-scout-17b-16e-instruct";
               EvEncodeImage "/tmp/a.jpg";
               EvExists "/tmp/a.jpg"]
              eq_refl eq_refl eq_refl eq_refl) as [Hrun _].
  exact Hrun.
Defined.

(** C6. Whatever the transcription service, the encoder and vision model
    and the two speech providers do, each returning or raising,
    [process_inputs] raises nothing and returns the triple of transcript,
    response and audio path; and every call that raised was converted: to
    the transcription placeholder, to the analysis placeholder, to a call
    of the fallback provider, or to the [None] audio path. *)
Theorem process_inputs_never_raises (env : Env) (a i : path) (t : trace) :
  ∃ stt dr vf evs,
    process_inputs env a i t = (Ok (stt, dr, vf), evs ++ t)
    ∧ Forall (converted evs stt dr vf) (failed env t evs).
Proof.
  destruct (process_inputs_log env a i t)
    as (stt & dr & vf & evs & Hrun & Hconv & _).
  by exists stt, dr, vf, evs.
Qed.

(** ** The session state *)

Lemma keys_spec (ss : gmap string path) (k : string) :
  k ∈ keys ss ↔ is_Some (ss !! k).
Proof.
  unfold keys. rewrite list_elem_of_fmap. split.
  - intros ([k' v] & -> & Hin). apply elem_of_map_to_list in Hin. by exists v.
  - intros [v Hv]. exists (k, v). split; [done|]. by apply elem_of_map_to_list.
Qed.

Lemma keys_NoDup (ss : gmap string path) : NoDup (keys ss).
Proof. apply NoDup_fst_map_to_list. Qed.

(** Deleting, one after the other, the keys of a snapshot that lists every
    key once raises no [KeyError] and leaves the empty dictionary. *)
Lemma del_each_snapshot (ks : list string) (s : State) :
  NoDup ks → (∀ k, k ∈ ks ↔ is_Some (session s !! k)) →
  del_each ks s = (Ok tt, {| log := log s; page := page s; session := ∅ |}).
Proof.
  revert s. induction ks as [|k ks IH]; intros s Hnd Hks.
  - simpl. unfold uret. destruct s as [t pg ss]. simpl in *.
    do 2 f_equal. apply map_empty.
    intros k. apply eq_None_not_Some. rewrite <- Hks. by intros ?%elem_of_nil.
  - apply NoDup_cons in Hnd as [Hk Hnd].
    destruct (proj1 (Hks k) ltac:(left)) as [v Hv].
    simpl. unfold ubind, del_item. rewrite Hv. rewrite IH; [done|done|].
    simpl. intros k'. destruct (decide (k' = k)) as [->|Hne].
    + rewrite lookup_delete_eq. split; [done|]. by intros [? ?].
    + rewrite lookup_delete_ne by done. rewrite <- Hks.
      rewrite elem_of_cons. split; [by right|]. by intros [?|?].
Qed.

(** The Clear Cache block on any state: the session state is emptied, and
    the block ends as the rerun call does. *)
Lemma main_clear_cache_run (host : Host) (s : State) :
  main_clear_cache host s =
    (match experimental_rerun host
             {| log := log s; page := page s; session := ∅ |} with
     | RerunSignal => Ok Rerun
     | RerunRaises e => Raise e
     end,
     {| log := EvRerun :: log s; page := page s; session := ∅ |}).
Proof.
  unfold main_clear_cache, ubind, session_keys.
  by rewrite del_each_snapshot by auto using keys_NoDup, keys_spec.
Qed.



(** C8. The Analyze handler calls [process_inputs] only when the audio path
    or the image path of the session is truthy, hence not [None], and then
    stores the three results; when both are absent it only shows a warning
    and leaves the session state as it was. *)
Theorem analyze_needs_an_input (env : Env) (ss : gmap string path) (t : trace) :
  let current_audio := getattr_or_none ss "audio_filepath" in
  let current_image := getattr_or_none ss "image_filepath" in
  if truthy current_audio || truthy current_image
  then (current_audio ≠ None ∨ current_image ≠ None)
       ∧ ∃ stt dr vf t',
           process_inputs env current_audio current_image t =
             (Ok (stt, dr, vf), t')
           ∧ main_analyze env ss t =
               (Ok (<["voice_filepath" := vf]>
                      (<["doctor_response" := Some dr]>
                         (<["speech_to_text" := Some stt]> ss))), t')
  else main_analyze env ss t =
         (Ok ss,
          EvStWarning "Please provide either audio input or image input (or both)"
            :: t).
Proof.
  intros current_audio current_image. unfold main_analyze.
  fold current_audio current_image.
  destruct (truthy current_audio) eqn:Ha; simpl.
  - split; [left; by destruct current_audio|].
    destruct (process_inputs_log env current_audio current_image t)
      as (stt & dr & vf & evs & Hrun & _).
    exists stt, dr, vf, (evs ++ t). split; [done|].
    unfold bind. by rewrite Hrun.
  - destruct (truthy current_image) eqn:Hi; simpl; [|done].
    split; [right; by destruct current_image|].
    destruct (process_inputs_log env current_audio current_image t)
      as (stt & dr & vf & evs & Hrun & _).
    exists stt, dr, vf, (evs ++ t). split; [done|].
    unfold bind. by rewrite Hrun.
Qed.

(** * More on the pipeline *)

(** ** The events of each stage *)

Section Shapes.

Variable env : Env.

(** The four runs of the transcription stage. *)
Lemma transcription_stage_shape a t :
  ∃ stt evs,
    transcription_stage env a t = (Ok stt, evs ++ t)
    ∧ (evs = []
       ∨ (∃ p, evs = [EvExists p])
       ∨ (∃ k p m, evs = [EvTranscribe k p m; EvExists p]
                   ∧ failed env t evs = [])
       ∨ (∃ msg k p m,
             evs = [EvStError msg; EvTranscribe k p m; EvExists p]
             ∧ failed env t evs = [EvTranscribe k p m])).
Proof.
  destruct a as [p|]; [destruct (truthy_str p) eqn:Hp|].
  - destruct (path_exists env t p) eqn:Hx.
    + rewrite transcription_present by done. cbv zeta.
      destruct (transcribe_with_groq _ _ _ _ _) as [text|e] eqn:Hc.
      * eexists text, [EvTranscribe _ p stt_model; EvExists p].
        split; [done|]. right. right. left. eexists _, _, _.
        split; [done|]. simpl. by rewrite Hc.
      * eexists _, [EvStError _; EvTranscribe _ p stt_model; EvExists p].
        split; [done|]. right. right. right. eexists _, _, _, _.
        split; [done|]. simpl. by rewrite Hc.
    + rewrite transcription_missing by done.
      exists EmptyString, [EvExists p]. split; [done|]. right. left. by exists p.
  - rewrite transcription_absent by done.
    exists EmptyString, []. split; [done|]. by left.
  - exists EmptyString, []. split; [done|]. by left.
Qed.

(** The five runs of the analysis stage. *)
Lemma analysis_stage_shape stt i t :
  ∃ dr evs,
    analysis_stage env stt i t = (Ok dr, evs ++ t)
    ∧ (evs = []
       ∨ (∃ q, evs = [EvExists q])
       ∨ (∃ qy enc m q,
             evs = [EvAnalyze qy enc m; EvEncodeImage q; EvExists q]
             ∧ failed env t evs = [])
       ∨ (∃ msg qy enc m q,
             evs = [EvStError msg; EvAnalyze qy enc m; EvEncodeImage q; EvExists q]
             ∧ failed env t evs = [EvAnalyze qy enc m])
       ∨ (∃ msg q,
             evs = [EvStError msg; EvEncodeImage q; EvExists q]
             ∧ failed env t evs = [EvEncodeImage q])).
Proof.
  destruct i as [q|]; [destruct (truthy_str q) eqn:Hq|].
  - destruct (path_exists env t q) eqn:Hx.
    + rewrite analysis_present, vision_query_run by done.
      destruct (encode_image _ _ _) as [encoded|e] eqn:Hc.
      * destruct (analyze_image_with_query _ _ _ _ _) as [dr|e] eqn:Hc'.
        -- eexists dr, [EvAnalyze _ encoded vision_model; EvEncodeImage q; EvExists q].
           split; [done|]. do 2 right. left. eexists _, _, _, _.
           split; [done|]. simpl. by rewrite Hc, Hc'.
        -- eexists _, [EvStError _; EvAnalyze _ encoded vision_model;
                       EvEncodeImage q; EvExists q].
           split; [done|]. do 3 right. left. eexists _, _, _, _, _.
           split; [done|]. simpl. by rewrite Hc, Hc'.
      * eexists _, [EvStError _; EvEncodeImage q; EvExists q].
        split; [done|]. do 4 right. eexists _, _.
        split; [done|]. simpl. by rewrite Hc.
    + rewrite analysis_missing by done.
      exists no_image, [EvExists q]. split; [done|]. right. left. by exists q.
  - rewrite analysis_absent by done.
    exists no_image, []. split; [done|]. by left.
  - exists no_image, []. split; [done|]. by left.
Qed.

(** The four runs of the synthesis stage. *)
Lemma synthesis_stage_shape dr t :
  ∃ vf evs,
    synthesis_stage env dr t = (Ok vf, evs ++ t)
    ∧ ((synthesis_wanted dr = false ∧ vf = None ∧ evs = [])
       ∨ (synthesis_wanted dr = true ∧ vf = Some voice_file
          ∧ evs = [EvElevenlabs dr voice_file]
          ∧ failed env t evs = [])
       ∨ (∃ msg,
             synthesis_wanted dr = true ∧ vf = Some voice_file
             ∧ evs = [EvGtts dr voice_file; EvStError msg;
                      EvElevenlabs dr voice_file]
             ∧ failed env t evs = [EvElevenlabs dr voice_file])
       ∨ (∃ msg msg2,
             synthesis_wanted dr = true ∧ vf = None
             ∧ evs = [EvStError msg2; EvGtts dr voice_file; EvStError msg;
                      EvElevenlabs dr voice_file]
             ∧ failed env t evs =
                 [EvGtts dr voice_file; EvElevenlabs dr voice_file])).
Proof.
  destruct (synthesis_wanted dr) eqn:Hw.
  - rewrite synthesis_run by done. cbv zeta.
    destruct (text_to_speech_with_elevenlabs _ _ _ _) as [[]|e] eqn:Hc.
    + exists (Some voice_file), [EvElevenlabs dr voice_file].
      split; [done|]. right. left. repeat split. simpl. by rewrite Hc.
    + destruct (text_to_speech_with_gtts _ _ _ _) as [[]|e2] eqn:Hc'.
      * eexists (Some voice_file),
          [EvGtts dr voice_file; EvStError _; EvElevenlabs dr voice_file].
        split; [done|]. do 2 right. left. eexists. repeat split.
        simpl. by rewrite Hc, Hc'.
      * eexists None,
          [EvStError _; EvGtts dr voice_file; EvStError _;
           EvElevenlabs dr voice_file].
        split; [done|]. do 3 right. eexists _, _. repeat split.
        simpl. by rewrite Hc, Hc'.
  - rewrite synthesis_skipped by done.
    exists None, []. split; [done|]. by left.
Qed.

End Shapes.

(** Split a run of [process_inputs] into the events of its three stages. *)
Ltac split_run env a i t :=
  let stt := fresh "stt" in let dr := fresh "dr" in let vf := fresh "vf" in
  let evs1 := fresh "evs1" in let evs2 := fresh "evs2" in
  let evs3 := fresh "evs3" in
  let Hs := fresh "Hs" in let Hd := fresh "Hd" in let Hv := fresh "Hv" in
  let S1 := fresh "S1" in let S2 := fresh "S2" in let S3 := fresh "S3" in
  destruct (transcription_stage_shape env a t) as (stt & evs1 & Hs & S1);
  destruct (analysis_stage_shape env stt i (evs1 ++ t)) as (dr & evs2 & Hd & S2);
  destruct (synthesis_stage_shape env dr (evs2 ++ evs1 ++ t))
    as (vf & evs3 & Hv & S3);
  assert (process_inputs env a i t =
            (Ok (stt, dr, vf), (evs3 ++ evs2 ++ evs1) ++ t))
    by (run_stages Hs Hd; rewrite Hv; by rewrite <- !app_assoc).

Lemma synthesis_wanted_spec dr :
  synthesis_wanted dr = true ↔
  dr ≠ EmptyString ∧ dr ≠ "No image provided for me to analyze".
Proof.
  unfold synthesis_wanted.
  rewrite andb_true_iff, negb_true_iff, String.eqb_neq. unfold no_image.
  destruct dr; simpl; split; intros [? ?]; split; done.
Qed.

(** ** What a run returns and calls *)

(** X1. [process_inputs] returns an audio path only for a response that is
    neither empty nor the no-image sentinel, and the path is then always
    the fixed file name "doctor_response.mp3". *)
Theorem audio_path_is_fixed_name (env : Env) (a i : path) (t : trace) :
  ∃ stt dr vf t',
    process_inputs env a i t = (Ok (stt, dr, vf), t')
    ∧ (vf = None
       ∨ (vf = Some "doctor_response.mp3"
          ∧ dr ≠ EmptyString
          ∧ dr ≠ "No image provided for me to analyze")).
Proof.
  split_run env a i t. eexists _, _, _, _. split; [eassumption|].
  destruct S3 as [(_ & -> & _)|[(Hw & -> & _)|[(msg & Hw & -> & _)
                 |(msg & msg2 & _ & -> & _)]]];
    try (by left); right; by apply synthesis_wanted_spec in Hw.
Qed.

(** X2. When the vision model itself answers with no text, or with the
    very sentence of the no-image sentinel, that answer is returned as the
    response, no speech provider is called and no audio path is
    returned. *)
Theorem silent_response_has_no_voice (env : Env) (a : path) (q : string)
    (t : trace) (stt : string) (t0 : trace) (enc dr : string) :
  transcription_stage env a t = (Ok stt, t0) →
  truthy_str q = true → path_exists env t0 q = true →
  encode_image env (EvExists q :: t0) q = Ok enc →
  analyze_image_with_query env (EvEncodeImage q :: EvExists q :: t0)
    (system_prompt +:+ stt) enc "meta-llama/llama-4-scout-17b-16e-instruct"
    = Ok dr →
  dr = EmptyString ∨ dr = "No image provided for me to analyze" →
  process_inputs env a (Some q) t =
    (Ok (stt, dr, None),
     EvAnalyze (system_prompt +:+ stt) enc
       "meta-llama/llama-4-scout-17b-16e-instruct"
       :: EvEncodeImage q :: EvExists q :: t0).
Proof.
  intros Hs Hq Hx Hc Hc' Hdr.
  pose proof (analysis_present env stt q t0 Hq Hx) as Hd.
  rewrite vision_query_run, Hc in Hd. unfold vision_model in Hd.
  rewrite Hc' in Hd. run_stages Hs Hd.
  rewrite synthesis_skipped; [done|]. by destruct Hdr as [->| ->].
Qed.

Lemma silent_response_has_no_voice_witness :
  process_inputs env_blank None (Some "/tmp/a.jpg") [] =
    (Ok (EmptyString, EmptyString, None),
     [EvAnalyze (system_prompt +:+ EmptyString) "aW1hZ2U="
        "meta-llama/llama-4-scout-17b-16e-instruct";
      EvEncodeImage "/tmp/a.jpg";
      EvExists "/tmp/a.jpg"]).
Proof.
  apply (silent_response_has_no_voice env_blank None "/tmp/a.jpg" []
           EmptyString [] "aW1hZ2U=" EmptyString);
    try reflexivity.
  by left.
Defined.

(** X3. When the primary speech provider returns, the fallback is not
    called: the run ends with the ElevenLabs call, reports no error for
    the synthesis and returns the fixed file name. *)
Theorem primary_success_needs_no_fallback (env : Env) (a i : path) (t : trace)
    (stt : string) (t0 : trace) (dr : string) (t1 : trace) (u : unit) :
  transcription_stage env a t = (Ok stt, t0) →
  analysis_stage env stt i t0 = (Ok dr, t1) →
  synthesis_wanted dr = true →
  text_to_speech_with_elevenlabs env t1 dr "doctor_response.mp3" = Ok u →
  process_inputs env a i t =
    (Ok (stt, dr, Some "doctor_response.mp3"),
     EvElevenlabs dr "doctor_response.mp3" :: t1).
Proof.
  intros Hs Hd Hw Hc. run_stages Hs Hd.
  rewrite synthesis_run by done. cbv zeta. unfold voice_file. by rewrite Hc.
Qed.

Lemma primary_success_needs_no_fallback_witness :
  process_inputs env_ok None (Some "/tmp/a.jpg") [] =
    (Ok (EmptyString, "With what I see, I think you have a rash",
         Some "doctor_response.mp3"),
     [EvElevenlabs "With what I see, I think you have a rash" "doctor_response.mp3";
      EvAnalyze system_prompt "aW1hZ2U=" "meta-llama/llama-4-scout-17b-16e-instruct";
      EvEncodeImage "/tmp/a.jpg";
      EvExists "/tmp/a.jpg"]).
Proof.
  apply (primary_success_needs_no_fallback env_ok None (Some "/tmp/a.jpg") []
           EmptyString [] "With what I see, I think you have a rash"
           [EvAnalyze system_prompt "aW1hZ2U="
              "meta-llama/llama-4-scout-17b-16e-instruct";
            EvEncodeImage "/tmp/a.jpg";
            EvExists "/tmp/a.jpg"] tt);
    reflexivity.
Defined.

(** Close a goal about the events of a run, shape by shape. *)
Ltac by_shapes S1 S2 S3 tac :=
  destruct S1 as [->|[(? & ->)|[(? & ? & ? & -> & ?)|(? & ? & ? & ? & -> & ?)]]];
  destruct S2 as [->|[(? & ->)|[(? & ? & ? & ? & -> & ?)
                 |[(? & ? & ? & ? & ? & -> & ?)|(? & ? & -> & ?)]]]];
  destruct S3 as [(? & ? & ->)|[(? & ? & -> & ?)|[(? & ? & ? & -> & ?)
                 |(? & ? & ? & ? & -> & ?)]]];
  tac.

(** X4. No call is retried. In one run the transcription service, the
    image encoder, the vision model and each speech provider are called at
    most once and the file system is asked at most twice. The calls come in
    order: the event just before a call of the vision model is the encoding
    of an image, and the two events just before a call of the fallback
    provider are a call of the primary provider with the same text and
    path and the report of its error. (The log holds the newest event
    first, so "just before" is the next element of the list.) *)
Theorem no_call_is_retried (env : Env) (a i : path) (t : trace) :
  ∃ evs,
    snd (process_inputs env a i t) = evs ++ t
    ∧ (count_if is_exists evs ≤ 2)%nat
    ∧ (count_if is_transcribe evs ≤ 1)%nat
    ∧ (count_if is_analyze evs ≤ count_if is_encode evs)%nat
    ∧ (count_if is_encode evs ≤ 1)%nat
    ∧ (count_if is_gtts evs ≤ count_if is_elevenlabs evs)%nat
    ∧ (count_if is_elevenlabs evs ≤ 1)%nat
    ∧ (∀ later earlier query encoded model,
         evs = later ++ EvAnalyze query encoded model :: earlier →
         ∃ q rest, earlier = EvEncodeImage q :: rest)
    ∧ (∀ later earlier text out,
         evs = later ++ EvGtts text out :: earlier →
         ∃ msg rest,
           earlier = EvStError msg :: EvElevenlabs text out :: rest).
Proof.
  split_run env a i t. exists (evs3 ++ evs2 ++ evs1).
  split; [by rewrite H|]. clear H Hs Hd Hv.
  by_shapes S1 S2 S3
    ltac:(repeat split; try (simpl; lia);
          intros later earlier **;
          repeat (destruct later as [|? later]; simplify_eq/=; eauto)).
Qed.

(** X5. Every call that raised is reported to the user, and nothing else
    is: the run shows as many [st.error] messages as calls raised. *)
Theorem every_failure_is_reported_once (env : Env) (a i : path) (t : trace) :
  ∃ evs,
    snd (process_inputs env a i t) = evs ++ t
    ∧ count_if is_st_error evs = length (failed env t evs).
Proof.
  split_run env a i t. exists (evs3 ++ evs2 ++ evs1).
  split; [by rewrite H|]. clear H Hs Hd Hv.
  rewrite !failed_app, <- (app_assoc evs2 evs1 t).
  by_shapes S1 S2 S3
    ltac:(repeat match goal with
                 | Hf : failed _ _ _ = _ |- _ => rewrite Hf; clear Hf
                 end; reflexivity).
Qed.

(** X6. With both files present, every service answering and an answer of
    the vision model that is neither empty nor the sentence of the no-image
    sentinel, the stages feed one another: the transcript is appended to
    the system prompt, the answer of the vision model is returned unchanged
    as the response and handed to the primary speech provider, and the
    audio path is the fixed file name. Six calls are made, in this
    order. *)
Theorem full_run (env : Env) (p q : string) (t : trace)
    (text enc dr : string) (u : unit) :
  let key := environ_get env "GROQ_API_KEY" in
  let t1 := EvTranscribe key p "whisper-large-v3" :: EvExists p :: t in
  let prompt := system_prompt +:+ text in
  let model := "meta-llama/llama-4-scout-17b-16e-instruct" in
  let t2 := EvAnalyze prompt enc model :: EvEncodeImage q :: EvExists q :: t1 in
  truthy_str p = true → path_exists env t p = true →
  transcribe_with_groq env (EvExists p :: t) key p "whisper-large-v3" = Ok text →
  truthy_str q = true → path_exists env t1 q = true →
  encode_image env (EvExists q :: t1) q = Ok enc →
  analyze_image_with_query env (EvEncodeImage q :: EvExists q :: t1)
    prompt enc model = Ok dr →
  dr ≠ EmptyString → dr ≠ "No image provided for me to analyze" →
  text_to_speech_with_elevenlabs env t2 dr "doctor_response.mp3" = Ok u →
  process_inputs env (Some p) (Some q) t =
    (Ok (text, dr, Some "doctor_response.mp3"),
     EvElevenlabs dr "doctor_response.mp3" :: t2).
Proof.
  intros key t1 prompt model t2 Hp Hx Hc Hq Hx' Hc1 Hc2 Hne Hns Hc3.
  pose proof (transcription_present env p t Hp Hx) as Hs.
  cbv zeta in Hs. unfold stt_model in Hs. fold key in Hs. rewrite Hc in Hs.
  pose proof (analysis_present env text q t1 Hq Hx') as Hd.
  rewrite vision_query_run, Hc1 in Hd. unfold vision_model in Hd.
  fold prompt model in Hd. rewrite Hc2 in Hd.
  run_stages Hs Hd.
  rewrite synthesis_run by by apply synthesis_wanted_spec.
  cbv zeta. unfold voice_file. fold t2. by rewrite Hc3.
Qed.

Lemma full_run_witness :
  process_inputs env_ok (Some "recorded_audio.mp3") (Some "/tmp/a.jpg") [] =
    (Ok ("my arm itches", "With what I see, I think you have a rash",
         Some "doctor_response.mp3"),
     [EvElevenlabs "With what I see, I think you have a rash" "doctor_response.mp3";
      EvAnalyze (system_prompt +:+ "my arm itches") "aW1hZ2U="
                "meta-llama/llama-4-scout-17b-16e-instruct";
      EvEncodeImage "/tmp/a.jpg";
      EvExists "/tmp/a.jpg";
      EvTranscribe (Some "gsk") "recorded_audio.mp3" "whisper-large-v3";
      EvExists "recorded_audio.mp3"]).
Proof.
  apply (full_run env_ok "recorded_audio.mp3" "/tmp/a.jpg" [] "my arm itches"
           "aW1hZ2U=" "With what I see, I think you have a rash" tt);
    done.
Defined.

(** X7. The transcript is decided by the audio input alone: for the same
    audio path and history, analysing another image, or none, returns the
    same transcript. *)
Theorem transcript_ignores_image (env : Env) (a i i' : path) (t : trace) :
  ∃ stt dr vf t1 dr' vf' t2,
    process_inputs env a i t = (Ok (stt, dr, vf), t1)
    ∧ process_inputs env a i' t = (Ok (stt, dr', vf'), t2).
Proof.
  destruct (transcription_stage_log env a t) as (stt & evs1 & Hs & _).
  destruct (analysis_stage_log env stt i (evs1 ++ t)) as (dr & evs2 & Hd & _).
  destruct (synthesis_stage_log env dr (evs2 ++ evs1 ++ t))
    as (vf & evs3 & Hv & _).
  destruct (analysis_stage_log env stt i' (evs1 ++ t)) as (dr' & evs2' & Hd' & _).
  destruct (synthesis_stage_log env dr' (evs2' ++ evs1 ++ t))
    as (vf' & evs3' & Hv' & _).
  eexists stt, dr, vf, _, dr', vf', _. split.
  - run_stages Hs Hd. by rewrite Hv.
  - run_stages Hs Hd'. by rewrite Hv'.
Qed.

(** * The page *)

(** ** What a block of [main] does to the session state *)

(** The Analyze handler returns, removes no key and writes its three
    result keys only. *)
Lemma main_analyze_run (env : Env) (ss : gmap string path) (t : trace) :
  ∃ ss' t',
    main_analyze env ss t = (Ok ss', t')
    ∧ (∀ k, is_Some (ss !! k) → is_Some (ss' !! k))
    ∧ (∀ k, k ≠ "voice_filepath" → k ≠ "doctor_response" →
            k ≠ "speech_to_text" → ss' !! k = ss !! k).
Proof.
  unfold main_analyze.
  destruct (negb _ && negb _).
  - exists ss, (EvStWarning
                  "Please provide either audio input or image input (or both)"
                  :: t).
    by repeat split.
  - destruct (process_inputs_log env (getattr_or_none ss "audio_filepath")
                (getattr_or_none ss "image_filepath") t)
      as (stt & dr & vf & evs & Hrun & _).
    unfold bind. rewrite Hrun. eexists _, _. split; [reflexivity|]. split.
    + intros k Hk. rewrite !lookup_insert. by repeat case_decide.
    + intros k H1 H2 H3. by rewrite !lookup_insert_ne.
Qed.

Section Kept.

Context {A B : Type}.

Lemma keeps_session_keys (m : U A) : keeps_session m → keeps_keys m.
Proof. intros Hm s k Hk. by rewrite Hm. Qed.

Lemma keeps_session_bind (m : U A) (k : A → U B) :
  keeps_session m → (∀ a, keeps_session (k a)) → keeps_session (ubind m k).
Proof.
  intros Hm Hk s. unfold ubind. specialize (Hm s).
  destruct (m s) as [[a|e] s']; simpl in *; [|done]. by rewrite Hk.
Qed.

Lemma keeps_keys_bind (m : U A) (k : A → U B) :
  keeps_keys m → (∀ a, keeps_keys (k a)) → keeps_keys (ubind m k).
Proof.
  intros Hm Hk s key Hkey. unfold ubind. specialize (Hm s key Hkey).
  destruct (m s) as [[a|e] s']; simpl in *; [|done]. by apply Hk.
Qed.

Lemma keeps_keys_try (m : U A) (h : exn → U A) :
  keeps_keys m → (∀ e, keeps_keys (h e)) → keeps_keys (utry_except m h).
Proof.
  intros Hm Hh s key Hkey. unfold utry_except. specialize (Hm s key Hkey).
  destruct (m s) as [[a|e] s']; simpl in *; [done|]. by apply Hh.
Qed.

Lemma keeps_session_ui_call (ev : ui_event) (answer : State → result A) :
  keeps_session (ui_call ev answer).
Proof. by intros s. Qed.

Lemma keeps_session_lift (m : M A) : keeps_session (lift m).
Proof. intros s. unfold lift. by destruct (m (log s)). Qed.

Lemma keeps_session_uret (a : A) : keeps_session (uret a).
Proof. by intros s. Qed.

End Kept.

Lemma keeps_keys_set_attr (name : string) (v : path) :
  keeps_keys (set_attr name v).
Proof.
  intros s k Hk. simpl. rewrite lookup_insert. by case_decide.
Qed.

Lemma keeps_session_if_attr (name : string) (then_ : string → U unit) :
  (∀ x, keeps_session (then_ x)) → keeps_session (if_attr name then_).
Proof.
  intros Hthen. unfold if_attr. apply keeps_session_bind; [by intros s|].
  intros [x|]; [destruct (truthy_str x)|]; auto using keeps_session_uret.
Qed.

Section Blocks.

Variable env : Env.
Variable host : Host.

Lemma keeps_session_save (f : option bytes) :
  keeps_session (save_uploaded_image host f).
Proof.
  destruct f as [data|]; [|by intros s]. simpl.
  repeat (apply keeps_session_bind; [|intros ?]);
    auto using keeps_session_ui_call, keeps_session_uret.
Qed.

Lemma keeps_keys_record (w : Widgets) : keeps_keys (main_record host w).
Proof.
  unfold main_record, st_success. destruct (start_recording w).
  - apply keeps_keys_try.
    + cbv zeta.
      repeat (apply keeps_keys_bind; [|intros ?]);
        auto using keeps_keys_set_attr, keeps_session_keys,
          keeps_session_ui_call.
    + intros e. apply keeps_session_keys, keeps_session_lift.
  - apply keeps_session_keys, keeps_session_uret.
Qed.

Lemma keeps_keys_image (w : Widgets) : keeps_keys (main_image host w).
Proof.
  unfold main_image, st_success, st_image.
  destruct (String.eqb _ _); [|destruct (String.eqb _ _)];
    try destruct (uploaded_image w); try destruct (camera_image w);
    try (apply keeps_session_keys, keeps_session_uret);
    repeat (apply keeps_keys_bind; [|intros ?]);
    auto using keeps_keys_set_attr, keeps_session_keys,
      keeps_session_ui_call, keeps_session_save, keeps_session_uret.
Qed.

Lemma keeps_session_results : keeps_session (main_results env host).
Proof.
  unfold main_results. apply keeps_session_bind; [|intros _].
  - unfold main_results_text.
    apply keeps_session_bind; [|intros _];
      apply keeps_session_if_attr; intros x; apply keeps_session_ui_call.
  - unfold main_results_voice. apply keeps_session_if_attr. intros p.
    apply keeps_session_bind; [apply keeps_session_lift|].
    intros [|]; [|apply keeps_session_uret].
    apply keeps_session_bind; [apply keeps_session_ui_call|intros data].
    apply keeps_session_bind; [apply keeps_session_ui_call|intros _].
    apply keeps_session_ui_call.
Qed.

Lemma keeps_keys_analyze : keeps_keys (on_session (main_analyze env)).
Proof.
  intros s k Hk. unfold on_session.
  destruct (main_analyze_run env (session s) (log s))
    as (ss' & t' & Hrun & Hkeys & _).
  rewrite Hrun. simpl. by apply Hkeys.
Qed.

Lemma keeps_keys_body (w : Widgets) : keeps_keys (main_body env host w).
Proof.
  unfold main_body.
  apply keeps_keys_bind; [apply keeps_keys_record|intros _].
  apply keeps_keys_bind; [apply keeps_keys_image|intros _].
  apply keeps_keys_bind.
  { destruct (analyze w);
      [apply keeps_keys_analyze | apply keeps_session_keys, keeps_session_uret]. }
  intros _. apply keeps_session_keys, keeps_session_results.
Qed.

End Blocks.

Lemma getattr_insert_eq (ss : gmap string path) (name : string) (v : path) :
  getattr_or_none (<[name := v]> ss) name = v.
Proof. unfold getattr_or_none. by rewrite lookup_insert_eq. Qed.

Lemma getattr_insert_ne (ss : gmap string path) (name k : string) (v : path) :
  name ≠ k → getattr_or_none (<[name := v]> ss) k = getattr_or_none ss k.
Proof. intros Hne. unfold getattr_or_none. by rewrite lookup_insert_ne. Qed.

(** ** The two savers *)

(** X8. When [save_uploaded_image] returns, it returns [None] exactly for
    the argument [None], and then it has touched nothing; a path it
    returns is the name of a ".jpg" temporary file created in this call, and
    the write of the whole upload to that file, with its close, has
    succeeded. *)
Theorem saved_image_holds_the_upload (host : Host) (f : option bytes)
    (s : State) (r : path) (s' : State) :
  save_uploaded_image host f s = (Ok r, s') →
  match r with
  | None => f = None ∧ s' = s
  | Some name =>
      ∃ data,
        f = Some data
        ∧ named_temporary_file host s ".jpg" = Ok name
        ∧ write_close host
            {| log := log s; page := UiTempFile ".jpg" :: page s;
               session := session s |} name data = Ok tt
        ∧ s' = {| log := log s;
                  page := UiWrite name data :: UiTempFile ".jpg" :: page s;
                  session := session s |}
  end.
Proof.
  destruct f as [data|]; simpl.
  - unfold save_temp, ubind, ui_call, uret.
    destruct (named_temporary_file host s ".jpg") as [name|e]; [|done].
    simpl. destruct (write_close host _ name data) as [[]|e] eqn:Hwr; [|done].
    intros [= <- <-]. by exists data.
  - by intros [= <- <-].
Qed.

Lemma saved_image_holds_the_upload_witness :
  ∃ data,
    Some [Byte.xff; Byte.xd8] = Some data
    ∧ named_temporary_file host_ok start ".jpg" = Ok "/tmp/tmp.jpg"
    ∧ write_close host_ok
        {| log := log start; page := UiTempFile ".jpg" :: page start;
           session := session start |} "/tmp/tmp.jpg" data = Ok tt
    ∧ {| log := [];
         page := [UiWrite "/tmp/tmp.jpg" [Byte.xff; Byte.xd8]; UiTempFile ".jpg"];
         session := ∅ |} =
      {| log := log start;
         page := UiWrite "/tmp/tmp.jpg" data :: UiTempFile ".jpg" :: page start;
         session := session start |}.
Proof.
  apply (saved_image_holds_the_upload host_ok (Some [Byte.xff; Byte.xd8]) start
           (Some "/tmp/tmp.jpg")).
  reflexivity.
Defined.

(** X9. [save_audio_file] does the same with a ".wav" temporary file:
    [None] exactly for [None], with nothing touched, and otherwise the name
    of a file created in this call, the write of all the bytes given to
    that file, with its close, having succeeded. *)
Theorem saved_audio_holds_the_bytes (host : Host) (f : option bytes)
    (s : State) (r : path) (s' : State) :
  save_audio_file host f s = (Ok r, s') →
  match r with
  | None => f = None ∧ s' = s
  | Some name =>
      ∃ data,
        f = Some data
        ∧ named_temporary_file host s ".wav" = Ok name
        ∧ write_close host
            {| log := log s; page := UiTempFile ".wav" :: page s;
               session := session s |} name data = Ok tt
        ∧ s' = {| log := log s;
                  page := UiWrite name data :: UiTempFile ".wav" :: page s;
                  session := session s |}
  end.
Proof.
  destruct f as [data|]; simpl.
  - unfold save_temp, ubind, ui_call, uret.
    destruct (named_temporary_file host s ".wav") as [name|e]; [|done].
    simpl. destruct (write_close host _ name data) as [[]|e] eqn:Hwr; [|done].
    intros [= <- <-]. by exists data.
  - by intros [= <- <-].
Qed.

Lemma saved_audio_holds_the_bytes_witness :
  ∃ data,
    Some [Byte.x52; Byte.x49] = Some data
    ∧ named_temporary_file host_ok start ".wav" = Ok "/tmp/tmp.wav"
    ∧ write_close host_ok
        {| log := log start; page := UiTempFile ".wav" :: page start;
           session := session start |} "/tmp/tmp.wav" data = Ok tt
    ∧ {| log := [];
         page := [UiWrite "/tmp/tmp.wav" [Byte.x52; Byte.x49]; UiTempFile ".wav"];
         session := ∅ |} =
      {| log := log start;
         page := UiWrite "/tmp/tmp.wav" data :: UiTempFile ".wav" :: page start;
         session := session start |}.
Proof.
  apply (saved_audio_holds_the_bytes host_ok (Some [Byte.x52; Byte.x49]) start
           (Some "/tmp/tmp.wav")).
  reflexivity.
Defined.

(** ** One run of the script *)

(** X10. A recording does not decide whether the run goes on. When the
    recorder raises, the error is shown and the rest of [main] runs as if
    the button had not been pressed, with the session state untouched, so a
    path stored by an earlier recording stays; when it returns, the rest
    runs with "recorded_audio.mp3" stored as the audio path. *)
Theorem recording_outcome (env : Env) (host : Host) (w : Widgets) (s : State) :
  start_recording w = true →
  let rest := {| start_recording := false;
                 image_input_method := image_input_method w;
                 uploaded_image := uploaded_image w;
                 camera_image := camera_image w;
                 analyze := analyze w;
                 clear_cache := clear_cache w |} in
  let recorded := UiRecordAudio "recorded_audio.mp3" 10 30 :: page s in
  main env host w s =
    main env host rest
      match record_audio host s "recorded_audio.mp3" 10 30 with
      | Ok _ =>
          {| log := log s;
             page := UiSuccess "Recording completed!" :: recorded;
             session := <["audio_filepath" := Some "recorded_audio.mp3"]>
                          (session s) |}
      | Raise e =>
          {| log := EvStError ("Recording failed: " +:+ str e) :: log s;
             page := recorded;
             session := session s |}
      end.
Proof.
  intros Hw rest recorded.
  assert (main_record host w s =
            (Ok tt,
             match record_audio host s "recorded_audio.mp3" 10 30 with
             | Ok _ =>
                 {| log := log s;
                    page := UiSuccess "Recording completed!" :: recorded;
                    session := <["audio_filepath" := Some "recorded_audio.mp3"]>
                                 (session s) |}
             | Raise e =>
                 {| log := EvStError ("Recording failed: " +:+ str e) :: log s;
                    page := recorded;
                    session := session s |}
             end)) as Hrec.
  { unfold main_record. rewrite Hw.
    unfold utry_except, ubind, ui_call, st_success, set_attr, lift, st_error,
      call, ui_call.
    simpl. by destruct (record_audio host s "recorded_audio.mp3" 10 30). }
  unfold main, main_body, ubind. by rewrite Hrec.
Qed.

Lemma recording_outcome_witness :
  main env_ok host_broken
    {| start_recording := true; image_input_method := "Upload Image";
       uploaded_image := None; camera_image := None;
       analyze := false; clear_cache := false |}
    {| log := []; page := [];
       session := {[ "audio_filepath" := Some "recorded_audio.mp3" ]} |} =
  main env_ok host_broken idle
    {| log := [EvStError "Recording failed: no microphone"];
       page := [UiRecordAudio "recorded_audio.mp3" 10 30];
       session := {[ "audio_filepath" := Some "recorded_audio.mp3" ]} |}.
Proof.
  apply (recording_outcome env_ok host_broken
           {| start_recording := true; image_input_method := "Upload Image";
              uploaded_image := None; camera_image := None;
              analyze := false; clear_cache := false |}).
  reflexivity.
Defined.

(** X11. Only Clear Cache removes anything from the session state: in a
    run where that button is not pressed every key stored before the run is
    still stored after it, whatever the widgets hold and whether the run
    returns or raises. *)
Theorem only_clear_cache_removes_keys (env : Env) (host : Host) (w : Widgets)
    (s : State) (k : string) :
  clear_cache w = false →
  is_Some (session s !! k) →
  is_Some (session (snd (main env host w s)) !! k).
Proof.
  intros Hw. revert s k. change (keeps_keys (main env host w)).
  unfold main. rewrite Hw.
  apply keeps_keys_bind; [apply keeps_keys_body|intros _].
  apply keeps_session_keys, keeps_session_uret.
Qed.

Lemma only_clear_cache_removes_keys_witness :
  is_Some
    (session
       (snd (main env_down host_broken
               {| start_recording := true; image_input_method := "Take Photo";
                  uploaded_image := None; camera_image := Some [Byte.xff];
                  analyze := true; clear_cache := false |}
               {| log := []; page := [];
                  session := {[ "doctor_response" := Some "rest" ]} |}))
     !! "doctor_response").
Proof.
  apply only_clear_cache_removes_keys; [reflexivity|].
  by eexists.
Defined.

(** Without a recording and without Clear Cache, the session state after a
    run is the one the image input and the Analyze handler leave. *)
Lemma main_session (env : Env) (host : Host) (w : Widgets) (s s2 : State) :
  start_recording w = false → clear_cache w = false →
  main_image host w s = (Ok tt, s2) →
  session (snd (main env host w s)) =
    session (snd ((if analyze w then on_session (main_analyze env)
                   else uret tt) s2)).
Proof.
  intros Hr Hcl Hi.
  unfold main, main_body, main_record. rewrite Hr, Hcl.
  unfold ubind. simpl. rewrite Hi.
  destruct (analyze w); simpl.
  - unfold on_session.
    destruct (main_analyze_run env (session s2) (log s2))
      as (ss' & t' & Hrun & _).
    rewrite Hrun. simpl.
    pose proof (keeps_session_results env host
                  {| log := t'; page := page s2; session := ss' |}) as Hres.
    by destruct (main_results env host _) as [[[]|e] s4].
  - pose proof (keeps_session_results env host s2) as Hres.
    by destruct (main_results env host s2) as [[[]|e] s4].
Qed.

(** X12. A run in which Clear Cache is pressed and whose script reaches
    that button ends in the rerun call with the session state empty,
    whatever the same run recorded, uploaded or analysed before. It never
    ends as a finished script: it is stopped for a rerun where Streamlit
    provides [st.experimental_rerun], and it raises the exception of that
    call where Streamlit does not. *)
Theorem clear_cache_ends_the_run_empty (env : Env) (host : Host) (w : Widgets)
    (s s1 : State) :
  clear_cache w = true →
  main_body env host w s = (Ok tt, s1) →
  main env host w s =
    (match experimental_rerun host
             {| log := log s1; page := page s1; session := ∅ |} with
     | RerunSignal => Ok Rerun
     | RerunRaises e => Raise e
     end,
     {| log := EvRerun :: log s1; page := page s1; session := ∅ |}).
Proof.
  intros Hw Hbody. unfold main, ubind. rewrite Hbody, Hw.
  apply main_clear_cache_run.
Qed.

Lemma clear_cache_ends_the_run_empty_witness :
  main env_no_files host_no_rerun
    {| start_recording := false; image_input_method := "Take Photo";
       uploaded_image := None; camera_image := Some [Byte.xff];
       analyze := true; clear_cache := true |} start =
    (Raise (Exception "module 'streamlit' has no attribute 'experimental_rerun'"),
     {| log := [EvRerun; EvExists "/tmp/tmp.jpg"];
        page := [UiTextArea "Medical Analysis:"
                   "No image provided for me to analyze" 150;
                 UiSuccess "Photo captured successfully!";
                 UiWrite "/tmp/tmp.jpg" [Byte.xff];
                 UiTempFile ".jpg"];
        session := ∅ |}).
Proof.
  exact (clear_cache_ends_the_run_empty env_no_files host_no_rerun
           {| start_recording := false; image_input_method := "Take Photo";
              uploaded_image := None; camera_image := Some [Byte.xff];
              analyze := true; clear_cache := true |} start
           {| log := [EvExists "/tmp/tmp.jpg"];
              page := [UiTextArea "Medical Analysis:"
                         "No image provided for me to analyze" 150;
                       UiSuccess "Photo captured successfully!";
                       UiWrite "/tmp/tmp.jpg" [Byte.xff];
                       UiTempFile ".jpg"];
              session :=
                <["voice_filepath" := None]>
                  (<["doctor_response" :=
                       Some "No image provided for me to analyze"]>
                     (<["speech_to_text" := Some EmptyString]>
                        (<["image_filepath" := Some "/tmp/tmp.jpg"]> ∅))) |}
           eq_refl eq_refl).
Defined.

(** X13. A run that only redraws the page (no button pressed, nothing in
    the uploader or the camera) leaves the session state exactly as it
    was, also when showing the results raises. *)
Theorem redraw_keeps_the_session (env : Env) (host : Host) (w : Widgets)
    (s : State) :
  start_recording w = false →
  uploaded_image w = None → camera_image w = None →
  analyze w = false → clear_cache w = false →
  session (snd (main env host w s)) = session s.
Proof.
  intros Hr Hu Hc Ha Hcl. revert s. change (keeps_session (main env host w)).
  unfold main, main_body, main_record, main_image.
  rewrite Hr, Hu, Hc, Ha, Hcl.
  apply keeps_session_bind; [|intros _; apply keeps_session_uret].
  apply keeps_session_bind; [apply keeps_session_uret|intros _].
  apply keeps_session_bind.
  { destruct (String.eqb _ _); [|destruct (String.eqb _ _)];
      apply keeps_session_uret. }
  intros _. apply keeps_session_bind; [apply keeps_session_uret|intros _].
  apply keeps_session_results.
Qed.

Lemma redraw_keeps_the_session_witness :
  session
    (snd (main env_ok host_broken idle
            {| log := []; page := [];
               session := {[ "voice_filepath" := Some "doctor_response.mp3" ]} |}))
  = {[ "voice_filepath" := Some "doctor_response.mp3" ]}.
Proof.
  apply (redraw_keeps_the_session env_ok host_broken idle); reflexivity.
Defined.

(** X14. Nothing is caught around the image input. An upload that was
    saved but cannot be opened as an image aborts the run with that
    exception: the temporary file stays on disk, its path is not stored in
    the session state, and neither Analyze nor Clear Cache is run even if
    pressed. *)
Theorem unreadable_upload_aborts_the_run (env : Env) (host : Host)
    (w : Widgets) (s : State) (data : bytes) (name : string) (u : unit)
    (e : exn) :
  start_recording w = false →
  image_input_method w = "Upload Image" →
  uploaded_image w = Some data →
  let s1 := {| log := log s; page := UiTempFile ".jpg" :: page s;
               session := session s |} in
  let s2 := {| log := log s; page := UiWrite name data :: page s1;
               session := session s |} in
  named_temporary_file host s ".jpg" = Ok name →
  write_close host s1 name data = Ok u →
  image_open host s2 data = Raise e →
  main env host w s =
    (Raise e,
     {| log := log s; page := UiImageOpen data :: page s2;
        session := session s |}).
Proof.
  intros Hr Hm Hu s1 s2 Hn Hwr Ho. subst s1 s2. simpl in *.
  unfold main, main_body, main_record, main_image. rewrite Hr, Hm, Hu. simpl.
  unfold ubind, save_temp, ubind, ui_call, uret. simpl.
  rewrite Hn. simpl. rewrite Hwr. simpl. by rewrite Ho.
Qed.

Lemma unreadable_upload_aborts_the_run_witness :
  main env_ok host_no_image
    {| start_recording := false; image_input_method := "Upload Image";
       uploaded_image := Some [Byte.x00]; camera_image := None;
       analyze := true; clear_cache := true |} start =
    (Raise (Exception "cannot identify image file"),
     {| log := [];
        page := [UiImageOpen [Byte.x00]; UiWrite "/tmp/tmp.jpg" [Byte.x00];
                 UiTempFile ".jpg"];
        session := ∅ |}).
Proof.
  apply (unreadable_upload_aborts_the_run env_ok host_no_image
           {| start_recording := false; image_input_method := "Upload Image";
              uploaded_image := Some [Byte.x00]; camera_image := None;
              analyze := true; clear_cache := true |}
           start [Byte.x00] "/tmp/tmp.jpg" tt
           (Exception "cannot identify image file"));
    reflexivity.
Defined.

(** The image input of a run in which a held upload is saved and opened. *)
Lemma main_image_upload (host : Host) (w : Widgets) (s : State) (data : bytes)
    (name : string) (u u' : unit) :
  image_input_method w = "Upload Image" →
  uploaded_image w = Some data →
  named_temporary_file host s ".jpg" = Ok name →
  write_close host
    {| log := log s; page := UiTempFile ".jpg" :: page s; session := session s |}
    name data = Ok u →
  image_open host
    {| log := log s; page := UiWrite name data :: UiTempFile ".jpg" :: page s;
       session := session s |} data = Ok u' →
  main_image host w s =
    (Ok tt,
     {| log := log s;
        page := UiImage data "Uploaded Image" :: UiImageOpen data
                  :: UiWrite name data :: UiTempFile ".jpg" :: page s;
        session := <["image_filepath" := Some name]> (session s) |}).
Proof.
  intros Hm Hu Hn Hwr Ho. unfold main_image. rewrite Hm, Hu. simpl.
  unfold ubind, save_temp, ubind, ui_call, uret, st_image, set_attr, ui_call.
  simpl. rewrite Hn. simpl. rewrite Hwr. simpl. by rewrite Ho.
Qed.

(** X15. Clear Cache does not forget an image that the uploader still
    holds. After a run in which the script reached the Clear Cache button,
    the session state is empty; in the next run of the script (the rerun
    that was asked for, or the next interaction where the rerun call
    raised), with no button pressed, the upload is saved to a new temporary
    file and its path is stored again, so the session state is not empty
    after that run. *)
Theorem reset_keeps_a_held_upload (env : Env) (host : Host) (w : Widgets)
    (s s0 : State) (data : bytes) (name : string) (u u' : unit) :
  clear_cache w = true →
  main_body env host w s = (Ok tt, s0) →
  image_input_method w = "Upload Image" →
  uploaded_image w = Some data →
  let s1 := snd (main env host w s) in
  let next := {| start_recording := false;
                 image_input_method := image_input_method w;
                 uploaded_image := uploaded_image w;
                 camera_image := camera_image w;
                 analyze := false;
                 clear_cache := false |} in
  named_temporary_file host s1 ".jpg" = Ok name →
  write_close host
    {| log := log s1; page := UiTempFile ".jpg" :: page s1;
       session := session s1 |} name data = Ok u →
  image_open host
    {| log := log s1; page := UiWrite name data :: UiTempFile ".jpg" :: page s1;
       session := session s1 |} data = Ok u' →
  session s1 = ∅
  ∧ session (snd (main env host next s1)) = {[ "image_filepath" := Some name ]}.
Proof.
  intros Hcl Hbody Hm Hu s1 next Hn Hwr Ho.
  assert (session s1 = ∅) as Hempty.
  { subst s1. unfold main, ubind. rewrite Hbody, Hcl.
    by rewrite main_clear_cache_run. }
  split; [done|].
  rewrite (main_session env host next s1 _ eq_refl eq_refl
             (main_image_upload host next s1 data name u u' Hm Hu Hn Hwr Ho)).
  simpl. by rewrite Hempty.
Qed.

Lemma reset_keeps_a_held_upload_witness :
  let w := {| start_recording := false; image_input_method := "Upload Image";
              uploaded_image := Some [Byte.xff]; camera_image := None;
              analyze := false; clear_cache := true |} in
  let next := {| start_recording := false; image_input_method := "Upload Image";
                 uploaded_image := Some [Byte.xff]; camera_image := None;
                 analyze := false; clear_cache := false |} in
  session (snd (main env_ok host_no_rerun w start)) = ∅
  ∧ session (snd (main env_ok host_no_rerun next
                    (snd (main env_ok host_no_rerun w start))))
    = {[ "image_filepath" := Some "/tmp/tmpiiii.jpg" ]}.
Proof.
  intros w next.
  exact (reset_keeps_a_held_upload env_ok host_no_rerun w start
           {| log := [];
              page := [UiImage [Byte.xff] "Uploaded Image"; UiImageOpen [Byte.xff];
                       UiWrite "/tmp/tmp.jpg" [Byte.xff]; UiTempFile ".jpg"];
              session := <["image_filepath" := Some "/tmp/tmp.jpg"]> ∅ |}
           [Byte.xff] "/tmp/tmpiiii.jpg" tt tt
           eq_refl eq_refl eq_refl eq_refl eq_refl eq_refl eq_refl).
Defined.

(** X16. An upload is analysed in the run that saves it: with Analyze
    pressed in the same run, the pipeline is called on the name of the
    temporary file just written, not on an image path stored earlier, and
    the session state then holds that path and the three results. *)
Theorem upload_is_analysed_in_the_same_run (env : Env) (host : Host)
    (w : Widgets) (s : State) (data : bytes) (name : string) (u u' : unit)
    (stt dr : string) (vf : path) (t' : trace) :
  start_recording w = false →
  image_input_method w = "Upload Image" →
  uploaded_image w = Some data →
  analyze w = true → clear_cache w = false →
  named_temporary_file host s ".jpg" = Ok name →
  write_close host
    {| log := log s; page := UiTempFile ".jpg" :: page s; session := session s |}
    name data = Ok u →
  image_open host
    {| log := log s; page := UiWrite name data :: UiTempFile ".jpg" :: page s;
       session := session s |} data = Ok u' →
  truthy_str name = true →
  process_inputs env (getattr_or_none (session s) "audio_filepath") (Some name)
    (log s) = (Ok (stt, dr, vf), t') →
  session (snd (main env host w s)) =
    <["voice_filepath" := vf]>
      (<["doctor_response" := Some dr]>
         (<["speech_to_text" := Some stt]>
            (<["image_filepath" := Some name]> (session s)))).
Proof.
  intros Hr Hm Hu Ha Hcl Hn Hwr Ho Hname Hrun.
  rewrite (main_session env host w s _ Hr Hcl
             (main_image_upload host w s data name u u' Hm Hu Hn Hwr Ho)).
  rewrite Ha. unfold on_session, main_analyze. simpl.
  rewrite getattr_insert_eq, getattr_insert_ne by done. simpl.
  rewrite Hname, andb_false_r. unfold bind. by rewrite Hrun.
Qed.

Lemma upload_is_analysed_in_the_same_run_witness :
  session
    (snd (main env_ok host_ok
            {| start_recording := false; image_input_method := "Upload Image";
               uploaded_image := Some [Byte.xff]; camera_image := None;
               analyze := true; clear_cache := false |}
            {| log := []; page := [];
               session := {[ "image_filepath" := Some "/tmp/old.jpg" ]} |})) =
    <["voice_filepath" := Some "doctor_response.mp3"]>
      (<["doctor_response" := Some "With what I see, I think you have a rash"]>
         (<["speech_to_text" := Some EmptyString]>
            (<["image_filepath" := Some "/tmp/tmp.jpg"]>
               {[ "image_filepath" := Some "/tmp/old.jpg" ]}))).
Proof.
  exact (upload_is_analysed_in_the_same_run env_ok host_ok
           {| start_recording := false; image_input_method := "Upload Image";
              uploaded_image := Some [Byte.xff]; camera_image := None;
              analyze := true; clear_cache := false |}
           {| log := []; page := [];
              session := {[ "image_filepath" := Some "/tmp/old.jpg" ]} |}
           [Byte.xff] "/tmp/tmp.jpg" tt tt EmptyString
           "With what I see, I think you have a rash"
           (Some "doctor_response.mp3")
           [EvElevenlabs "With what I see, I think you have a rash"
              "doctor_response.mp3";
            EvAnalyze system_prompt "aW1hZ2U="
              "meta-llama/llama-4-scout-17b-16e-instruct";
            EvEncodeImage "/tmp/tmp.jpg";
            EvExists "/tmp/tmp.jpg"]
           eq_refl eq_refl eq_refl eq_refl eq_refl eq_refl eq_refl eq_refl
           eq_refl eq_refl).
Defined.

(** X17. After an analysis that returned no audio path (both speech
    providers raised, or synthesis was skipped), the results show the
    response and the non-empty transcript and nothing else: no audio
    player, no download button and not even a check for an audio file, so a
    "doctor_response.mp3" left by an earlier run is not offered. *)
Theorem no_audio_path_shows_no_player (env : Env) (host : Host) (s : State)
    (stt dr : string) (t' : trace) :
  let a := getattr_or_none (session s) "audio_filepath" in
  let i := getattr_or_none (session s) "image_filepath" in
  truthy a || truthy i = true →
  process_inputs env a i (log s) = (Ok (stt, dr, None), t') →
  let s' := snd ((let+ _ := on_session (main_analyze env) in
                  main_results env host) s) in
  log s' = t'
  ∧ players (page s') = players (page s)
  ∧ text_areas (page s') =
      (if truthy_str dr then [("Medical Analysis:", dr)] else [])
      ++ (if truthy_str stt then [("Transcribed Text:", stt)] else [])
      ++ text_areas (page s).
Proof.
  intros a i Hg Hrun.
  assert (on_session (main_analyze env) s =
            (Ok tt,
             {| log := t'; page := page s;
                session := <["voice_filepath" := None]>
                             (<["doctor_response" := Some dr]>
                                (<["speech_to_text" := Some stt]> (session s))) |}))
    as Han.
  { unfold on_session, main_analyze. fold a i.
    replace (negb (truthy a) && negb (truthy i)) with false
      by (by destruct (truthy a), (truthy i)).
    unfold bind. by rewrite Hrun. }
  intros s'. subst s'. unfold ubind at 1 2 3. rewrite Han.
  unfold main_results, main_results_text, main_results_voice, if_attr,
    get_attr, ubind, st_text_area, ui_call, uret.
  simpl. rewrite !getattr_insert_ne, getattr_insert_eq by done.
  destruct (truthy_str stt); simpl;
    rewrite getattr_insert_ne, getattr_insert_eq by done;
    destruct (truthy_str dr); simpl;
    by rewrite getattr_insert_eq.
Qed.

Lemma no_audio_path_shows_no_player_witness :
  let s := {| log := [];
              page := [UiAudio [Byte.x49] "audio/mp3"];
              session := {[ "image_filepath" := Some "/tmp/a.jpg" ]} |} in
  let s' := snd ((let+ _ := on_session (main_analyze env_mute) in
                  main_results env_mute host_ok) s) in
  players (page s') = [UiAudio [Byte.x49] "audio/mp3"]
  ∧ text_areas (page s') =
      [("Medical Analysis:", "With what I see, I think you have a rash")].
Proof.
  intros s s'.
  destruct (no_audio_path_shows_no_player env_mute host_ok s EmptyString
              "With what I see, I think you have a rash"
              [EvStError "Error with fallback TTS: offline";
               EvGtts "With what I see, I think you have a rash"
                 "doctor_response.mp3";
               EvStError "Error generating voice response: quota";
               EvElevenlabs "With what I see, I think you have a rash"
                 "doctor_response.mp3";
               EvAnalyze system_prompt "aW1hZ2U="
                 "meta-llama/llama-4-scout-17b-16e-instruct";
               EvEncodeImage "/tmp/a.jpg";
               EvExists "/tmp/a.jpg"]
              eq_refl eq_refl) as (_ & Hplayers & Htexts).
  split; [exact Hplayers | exact Htexts].
Defined.


(** X19. The Analyze handler never changes the two stored input paths, so
    pressing Analyze again analyses the same inputs; it writes its three
    result keys only. *)
Theorem analyze_keeps_the_inputs (env : Env) (s : State) (k : string) :
  k ≠ "voice_filepath" → k ≠ "doctor_response" → k ≠ "speech_to_text" →
  session (snd (on_session (main_analyze env) s)) !! k = session s !! k.
Proof.
  intros H1 H2 H3. unfold on_session.
  destruct (main_analyze_run env (session s) (log s))
    as (ss' & t' & Hrun & _ & Hother).
  rewrite Hrun. simpl. by apply Hother.
Qed.

Lemma analyze_keeps_the_inputs_witness :
  session
    (snd (on_session (main_analyze env_ok)
            {| log := []; page := [];
               session := {[ "image_filepath" := Some "/tmp/a.jpg" ]} |}))
    !! "image_filepath" = Some (Some "/tmp/a.jpg").
Proof.
  exact (analyze_keeps_the_inputs env_ok
           {| log := []; page := [];
              session := {[ "image_filepath" := Some "/tmp/a.jpg" ]} |}
           "image_filepath" ltac:(done) ltac:(done) ltac:(done)).
Defined.
